(** * Pokemon-finder: the pricing and detection pipeline of [app.py]

    A shallow embedding of the eBay helpers ([contains_disallowed],
    [trimmed_mean], [get_completed_prices], [get_active_under]), of the two
    entry points that classify listings ([dashboard], [api_search]) and of
    the account routes ([welcome], [logout], [login_required]), followed by
    the properties of the pipeline.

    Modelling conventions.
    - A Python [float] is embedded twice. In the main development it is an
      exact rational ([Qc], canonical rationals with Leibniz equality) and
      [round(x, 2)] is decimal round-half-to-even of the exact value: this
      carries the properties of the structure of the pipeline (what is
      kept, which branch is taken, which requests are sent) and of the
      estimator as a function of exact prices. In module [Binary64] it is
      an IEEE 754 binary64 number, with the arithmetic, the rounding and
      the nan of the interpreter, and the helpers and entry points are
      embedded on it again: this carries the properties that depend on
      rounding or on nan.
    - A Python [int] is a [Z]; [len] is [Z.of_nat (length _)].
    - A Python [str] is a [string] of 8-bit characters; [lower] and [strip]
      act on the ASCII range.
    - An exception is the [Raise] case of [res]; network access is a call to
      a [World] oracle that is logged in a trace, so that "no fetch happened"
      is a statement about the trace.
    - The [users] table is a list of rows; a connection of [sqlite3] keeps
      the committed table and the table inside its transaction. *)

From Stdlib Require Import QArith Qcanon Qround ZArith Lia Lqa List String Ascii.
From Stdlib Require Import PrimFloat FloatOps SpecFloat.
From Stdlib Require Uint63.
From stdpp Require Import base list numbers strings sorting option pretty gmap.

Local Open Scope Z_scope.

(** A decimal literal of a float is the nearest binary64 number, as it is
    in Python. *)
#[local] Set Warnings "-inexact-float".

(** ** Exceptions *)

Inductive exn : Type :=
  | StatisticsError (msg : string)
  | IndexError (msg : string)
  | ValueError (msg : string)
  | TypeError (msg : string)
  | RequestException (msg : string).

(** [str(e)] *)
Definition exn_str (e : exn) : string :=
  match e with
  | StatisticsError m | IndexError m | ValueError m | TypeError m
  | RequestException m => m
  end.

Inductive res (A : Type) : Type :=
  | Ok (a : A)
  | Raise (e : exn).
Arguments Ok {A} a.
Arguments Raise {A} e.

Global Instance res_ret : MRet res := λ A a, Ok a.
Global Instance res_bind : MBind res := λ A B f m,
  match m with
  | Ok a => f a
  | Raise e => Raise e
  end.
Global Instance res_fmap : FMap res := λ A B f m,
  match m with
  | Ok a => Ok (f a)
  | Raise e => Raise e
  end.

(** ** Python built-ins on strings *)

Module PyStr.

Definition lower_ascii (c : ascii) : ascii :=
  let n := nat_of_ascii c in
  if ((65 <=? n)%nat && (n <=? 90)%nat)%bool then ascii_of_nat (n + 32) else c.

(** [s.lower()] *)
Fixpoint lower (s : string) : string :=
  match s with
  | EmptyString => EmptyString
  | String c s' => String (lower_ascii c) (lower s')
  end.

Fixpoint startswith (p s : string) : bool :=
  match p, s with
  | EmptyString, _ => true
  | String _ _, EmptyString => false
  | String a p', String b s' => bool_decide (a = b) && startswith p' s'
  end.

(** [sub in s] *)
Fixpoint contains (sub s : string) : bool :=
  startswith sub s ||
  match s with
  | EmptyString => false
  | String _ s' => contains sub s'
  end.

(** The characters [str.strip()] removes, in the ASCII range:
    tab, line feed, vertical tab, form feed, carriage return,
    the four separators 28..31 and the space. *)
Definition is_space (c : ascii) : bool :=
  let n := nat_of_ascii c in
  (((9 <=? n)%nat && (n <=? 13)%nat) || ((28 <=? n)%nat && (n <=? 32)%nat))%bool.

Fixpoint lstrip (s : string) : string :=
  match s with
  | EmptyString => EmptyString
  | String c s' => if is_space c then lstrip s' else s
  end.

Fixpoint rstrip (s : string) : string :=
  match s with
  | EmptyString => EmptyString
  | String c s' =>
      match rstrip s' with
      | EmptyString => if is_space c then EmptyString else String c EmptyString
      | r => String c r
      end
  end.

(** [s.strip()] *)
Definition strip (s : string) : string := rstrip (lstrip s).

(** [s.split(sep)] for a one-character separator: never the empty list,
    empty fields are kept. *)
Fixpoint split (sep : ascii) (s : string) : list string :=
  match s with
  | EmptyString => [EmptyString]
  | String c s' =>
      if bool_decide (c = sep) then EmptyString :: split sep s'
      else match split sep s' with
           | h :: t => String c h :: t
           | [] => [String c EmptyString]
           end
  end.

(** Truth value of a string: [if s] *)
Definition truthy (s : string) : bool := negb (bool_decide (s = EmptyString)).

End PyStr.

(** ** Python built-ins on numbers and lists *)

Module PyNum.

Local Open Scope Qc_scope.

Definition len {A} (l : list A) : Z := Z.of_nat (length l).

(** [math.floor(x)] *)
Definition floor (x : Qc) : Z := Qfloor x.

(** Nearest integer, ties to the even one. *)
Definition round_half_even (x : Qc) : Z :=
  let f := Qfloor x in
  let r := x - Qc_of_Z f in
  if decide (r < 1 / 2) then f
  else if decide (1 / 2 < r) then (f + 1)%Z
  else if Z.even f then f else (f + 1)%Z.

(** [round(x, 2)] *)
Definition round2 (x : Qc) : Qc :=
  Qc_of_Z (round_half_even (x * Qc_of_Z 100)) / Qc_of_Z 100.

(** [sum(l)]: starts from 0 and adds from the left. *)
Definition sum (l : list Qc) : Qc := fold_left Qcplus l 0.

(** [sorted(l)] for floats: a stable merge sort by [<=]. *)
Definition sorted (l : list Qc) : list Qc := merge_sort Qcle l.

(** [l[i]]: a negative index counts from the end; out of range raises. *)
Definition index {A} (l : list A) (i : Z) : res A :=
  let j := if (i <? 0)%Z then (i + len l)%Z else i in
  if (j <? 0)%Z then Raise (IndexError "list index out of range")
  else match l !! Z.to_nat j with
       | Some x => Ok x
       | None => Raise (IndexError "list index out of range")
       end.

(** Bound of a slice: negative counts from the end, then clamped. *)
Definition clamp (n i : Z) : Z :=
  if (i <? 0)%Z then Z.max (i + n) 0 else Z.min i n.

(** [l[a:b]] *)
Definition slice {A} (l : list A) (a b : Z) : list A :=
  let a' := clamp (len l) a in
  let b' := clamp (len l) b in
  take (Z.to_nat (b' - a')) (drop (Z.to_nat a') l).

(** [statistics.median(data)] of the Python standard library: sorts its
    argument, raises on no data, returns the middle element for an odd
    count and the mean of the two middle elements for an even count. *)
Definition median (data : list Qc) : res Qc :=
  let data := sorted data in
  let n := len data in
  if (n =? 0)%Z then Raise (StatisticsError "no median for empty data")
  else if (n mod 2 =? 1)%Z then index data (n / 2)
  else
    let i := (n / 2)%Z in
    a ← index data (i - 1);
    b ← index data i;
    Ok ((a + b) / Qc_of_Z 2).

(** Truth value of [None | float]: [None] and [0.0] are false. *)
Definition truthy (x : option Qc) : bool :=
  match x with
  | None => false
  | Some v => negb (bool_decide (v = 0))
  end.

End PyNum.

(** ** eBay helpers: the pure part *)

(** [any(term in t for term in disallowed)] with [t = (title or "").lower()];
    the title is a [str], for which [title or ""] is the title itself. *)
Definition contains_disallowed (title : string) (disallowed : list string) : bool :=
  let t := PyStr.lower title in
  existsb (λ term, PyStr.contains term t) disallowed.

(** Line 75: the core slice, or the whole sorted list when the slice would
    have fewer than three elements. *)
Definition select_core (prices_sorted : list Qc) (n trim : Z) : list Qc :=
  if (n - 2 * trim >=? 3)%Z then PyNum.slice prices_sorted trim (n - trim)
  else prices_sorted.

(** Line 76: the mean of the core, or the median of the sorted list when the
    core is empty. *)
Definition core_estimate (core prices_sorted : list Qc) : res Qc :=
  match core with
  | [] => PyNum.median prices_sorted
  | _ => Ok (PyNum.sum core / Qc_of_Z (PyNum.len core))%Qc
  end.

(** Line 74: [max(1, math.floor(n*0.15))], with the exact product. The
    binary64 product is within one part in [2^52] of it and is exact on the
    multiples of 20, so the floor is the same for every length a list can
    have. *)
Definition trim_of (n : Z) : Z :=
  Z.max 1 (PyNum.floor (Qc_of_Z n * Q2Qc (15 # 100))%Qc).

Definition trimmed_mean (prices : list Qc) : res (option Qc) :=
  match prices with
  | [] => Ok None
  | _ =>
      let prices_sorted := PyNum.sorted prices in
      let n := PyNum.len prices_sorted in
      if (n <? 6)%Z then Some <$> PyNum.median prices_sorted
      else
        let trim := trim_of n in
        let core := select_core prices_sorted n trim in
        Some <$> core_estimate core prices_sorted
  end.

(** ** The marketplace: listings, calls and the network *)

(** One entry of [searchResult.item] in a Finding API response, with the
    fields the helpers read. [raw_currencyId] and [raw_value] are the
    [@currencyId] and [__value__] keys of [currentPrice], which may be
    missing. *)
Record RawListing : Type := {
  raw_title : string;
  raw_sellingState : string;
  raw_currencyId : option string;
  raw_value : option string;
  raw_viewItemURL : string;
  raw_itemId : string
}.

(** The dict [{"id", "title", "price", "url"}] appended by [get_active_under]. *)
Record CleanListing : Type := {
  hit_id : string;
  hit_title : string;
  hit_price : Qc;
  hit_url : string
}.

(** The two requests the helpers send, with the parameters that vary. *)
Inductive Call : Type :=
  | findCompletedItems (app_id keywords global_id category_id : string)
      (entries : Z)
  | findItemsAdvanced (app_id keywords global_id category_id : string)
      (max_price : Qc) (currency : string) (entries : Z).

(** What the marketplace answers: the items of the response, or the
    exception of [requests.get] / [raise_for_status]. *)
Definition World : Type := Call → res (list RawListing).

(** Computations that may call the network: the trace records every call. *)
Definition Net (A : Type) : Type := World → list Call → res A * list Call.

Global Instance Net_ret : MRet Net := λ A a w tr, (Ok a, tr).
Global Instance Net_bind : MBind Net := λ A B f m w tr,
  match m w tr with
  | (Ok a, tr') => f a w tr'
  | (Raise e, tr') => (Raise e, tr')
  end.

Definition raise {A} (e : exn) : Net A := λ w tr, (Raise e, tr).
Definition lift {A} (r : res A) : Net A := λ w tr, (r, tr).

(** [requests.get(url, params, timeout=25)], [raise_for_status], [json] and
    the descent to the item list. *)
Definition requests_get (c : Call) : Net (list RawListing) :=
  λ w tr, (w c, tr ++ [c]).

(** The form of [dashboard] and the JSON body of [api_search], after the
    defaults and the [int] / [float] conversions. *)
Record SearchForm : Type := {
  keywords : string;
  global_id : string;
  category_id : string;
  currency : string;
  sold_fetch : Z;
  min_sold : Z;
  discount_percent : Qc;
  active_fetch : Z;
  exclude_terms : string
}.

(** The [results] dict; a key that is not in the dict is [None] here
    ([note] in a populated result). *)
Record Result : Type := {
  note : option string;
  sold_count : Z;
  avg_price : option Qc;
  threshold : option Qc;
  hits : list CleanListing
}.

(** What [dashboard] renders: the results and the flashed messages. *)
Record Page : Type := {
  page_results : option Result;
  page_flashes : list string
}.

(** What [api_search] answers: [{"ok": True, ...}] or
    [{"ok": False, "error": ...}] with its status. *)
Inductive ApiResponse : Type :=
  | ApiOk (r : Result)
  | ApiError (status : Z) (error : string).

(** [[t.strip().lower() for t in exclude_terms.split(",") if t.strip()]] *)
Definition parse_terms (exclude_terms : string) : list string :=
  map (λ t, PyStr.lower (PyStr.strip t))
    (List.filter (λ t, PyStr.truthy (PyStr.strip t))
       (PyStr.split "," exclude_terms)).

(** Line 259 and 302. *)
Definition threshold_of (avg_price discount_percent : Qc) : Qc :=
  PyNum.round2 (avg_price * (1 - discount_percent / Qc_of_Z 100))%Qc.

(** A reader of plain decimal literals such as [12.50]: the instance of
    [float] the examples run with. *)
Fixpoint digits_val (s : string) (acc : Z) : option Z :=
  match s with
  | EmptyString => Some acc
  | String c s' =>
      let n := Z.of_nat (nat_of_ascii c) in
      if (48 <=? n) && (n <=? 57) then digits_val s' (10 * acc + (n - 48))
      else None
  end.

Definition decimal_float (s : string) : option Qc :=
  match PyStr.split "." s with
  | [i] => if PyStr.truthy i then Qc_of_Z <$> digits_val i 0 else None
  | [i; f] =>
      if PyStr.truthy i || PyStr.truthy f then
        a ← digits_val i 0;
        b ← digits_val f 0;
        Some (Qc_of_Z a + Qc_of_Z b / Qc_of_Z (10 ^ Z.of_nat (String.length f)))%Qc
      else None
  | _ => None
  end.

(** Decidable equality, to compare the outcome of a run with the expected one. *)
Global Instance exn_eq_dec : EqDecision exn.
Proof. solve_decision. Defined.
Global Instance res_eq_dec {A} `{EqDecision A} : EqDecision (res A).
Proof. solve_decision. Defined.
Global Instance CleanListing_eq_dec : EqDecision CleanListing.
Proof. solve_decision. Defined.
Global Instance Call_eq_dec : EqDecision Call.
Proof. solve_decision. Defined.
Global Instance Result_eq_dec : EqDecision Result.
Proof. solve_decision. Defined.
Global Instance Page_eq_dec : EqDecision Page.
Proof. solve_decision. Defined.
Global Instance ApiResponse_eq_dec : EqDecision ApiResponse.
Proof. solve_decision. Defined.

(** Line 61. *)
Definition DISALLOWED_DEFAULT : list string :=
  ["psa"; "bgs"; "cgc"; "graded"; "proxy"; "reprint"; "replica"; "lot";
   "bundle"; "job lot"].

(** ** Sample marketplace data for the examples *)

Definition listing (title state cur value : string) : RawListing :=
  {| raw_title := title; raw_sellingState := state;
     raw_currencyId := Some cur; raw_value := Some value;
     raw_viewItemURL := "https://www.ebay.co.uk/itm/1";
     raw_itemId := "1" |}.

Definition sold_card : RawListing :=
  listing "Charizard holo 1999" "EndedWithSales" "GBP" "10.00".

(** Fifteen sales at 10.00 GBP, and four records the filter drops. *)
Definition sold_items : list RawListing :=
  replicate 15 sold_card
  ++ [listing "PSA9 Charizard" "EndedWithSales" "GBP" "400.00";
      listing "Charizard holo" "EndedWithSales" "USD" "1.00";
      listing "Charizard holo" "EndedWithoutSales" "GBP" "2.00";
      listing "Charizard holo" "EndedWithSales" "GBP" "n/a"].

Definition few_items : list RawListing := replicate 5 sold_card.

Definition active_items : list RawListing :=
  [listing "Blastoise holo" "Active" "GBP" "5.50";
   listing "Blastoise holo" "Active" "EUR" "0.50";
   listing "Blastoise job lot" "Active" "GBP" "3.00"].

(** A marketplace that answers every search; a search for [few] finds five
    sales only. *)
Definition demo_world : World := λ c,
  match c with
  | findCompletedItems _ kw _ _ _ =>
      if bool_decide (kw = "few") then Ok few_items else Ok sold_items
  | findItemsAdvanced _ _ _ _ _ _ _ => Ok active_items
  end.

(** The defaults of the form and of the JSON body. *)
Definition default_form : SearchForm :=
  {| keywords := "vintage pokemon cards holo";
     global_id := "EBAY-GB";
     category_id := "183454";
     currency := "GBP";
     sold_fetch := 50;
     min_sold := 12;
     discount_percent := Qc_of_Z 40;
     active_fetch := 50;
     exclude_terms := "psa,bgs,cgc,graded,proxy,reprint,replica,lot,bundle,job lot" |}.

Definition demo_hit : CleanListing :=
  {| hit_id := "1"; hit_title := "Blastoise holo";
     hit_price := Q2Qc (11 # 2); hit_url := "https://www.ebay.co.uk/itm/1" |}.

Definition completed_call (kw : string) : Call :=
  findCompletedItems "APP" kw "EBAY-GB" "183454" 50.

Definition active_call (max_price : Qc) : Call :=
  findItemsAdvanced "APP" "vintage pokemon cards holo" "EBAY-GB" "183454"
    max_price "GBP" 50.

(** The result of the default search on [demo_world]. *)
Definition populated : Result :=
  {| note := None; sold_count := 15; avg_price := Some (Qc_of_Z 10);
     threshold := Some (Qc_of_Z 6); hits := [demo_hit] |}.

(** Samples of prices. *)
Definition eight_prices : list Qc :=
  Qc_of_Z <$> [10; 10; 10; 10; 10; 10; 10; 100].

Definition four_prices : list Qc := Qc_of_Z <$> [1; 5; 3; 4].

(** A sale in another currency. *)
Definition dollar_listing : RawListing :=
  listing "Charizard holo" "EndedWithSales" "USD" "1.00".

Definition with_keywords (kw : string) (f : SearchForm) : SearchForm :=
  {| keywords := kw; global_id := global_id f; category_id := category_id f;
     currency := currency f; sold_fetch := sold_fetch f;
     min_sold := min_sold f; discount_percent := discount_percent f;
     active_fetch := active_fetch f; exclude_terms := exclude_terms f |}.

Definition with_discount (d : Qc) (f : SearchForm) : SearchForm :=
  {| keywords := keywords f; global_id := global_id f;
     category_id := category_id f; currency := currency f;
     sold_fetch := sold_fetch f; min_sold := min_sold f;
     discount_percent := d; active_fetch := active_fetch f;
     exclude_terms := exclude_terms f |}.

(** ** Accounts and sessions *)

(** [sep.join(l)] *)
Fixpoint str_join (sep : string) (l : list string) : string :=
  match l with
  | [] => EmptyString
  | [s] => s
  | s :: l' => s +:+ sep +:+ str_join sep l'
  end.

(** A row of the [users] table of [init_db]. *)
Record User : Type := {
  user_id : Z;
  user_email : string;
  user_stripe_customer_id : string;
  user_plan : string;
  user_api_key : string;
  user_created_at : string
}.

(** The Flask session: a dict; only the key [uid] is used. *)
Abbreviation Session := (gmap string Z).

(** [current_user]: [None] without a [uid] (or with the false [uid] 0),
    else the row with that id, if any. *)
Definition current_user (session : Session) (users : list User) : option User :=
  match session !! "uid" with
  | None => None
  | Some uid =>
      if bool_decide (uid = 0) then None
      else List.find (λ u, bool_decide (user_id u = uid)) users
  end.

(** [login_required]: the wrapped view, or a redirect to [index]. A row is
    true, [None] is false. *)
Definition login_required {A} (redirect_index : A) (f : A)
    (session : Session) (users : list User) : A :=
  match current_user session users with
  | None => redirect_index
  | Some _ => f
  end.

(** [logout]: the session after [session.clear()]; the answer is the
    redirect to [index]. *)
Definition logout (session : Session) : Session := ∅.

Inductive Method : Type := GET | POST.

(** What the route [/dashboard] answers. *)
Inductive DashboardResponse : Type :=
  | RedirectIndex
  | RenderDashboard (page : Page).

(** The customer of a checkout session as [welcome] reads it: the [email]
    and [id] of the expanded customer, or of the customer fetched by id. *)
Record Customer : Type := {
  customer_email : option string;
  customer_id : string
}.

(** Stripe as [welcome] uses it: the customer of the session, or [str(e)]
    of the exception raised on the way. *)
Definition Stripe : Type := string → string + Customer.

Inductive WelcomeResponse : Type :=
  | RedirectPricing
  | RenderWelcome
  | WelcomeError (status : Z) (body : string).

(** ** The database: [sqlite3] as [app.py] uses it

    Modelled from the Python standard library. An exception is kept as its
    message, which is all that the [except] clause of [welcome] reads. *)

Module Sqlite.

(** The connection returned by [db()]: the [users] table as committed, and
    as seen inside the transaction that an INSERT opens. *)
Record Connection : Type := {
  committed : list User;
  pending : list User
}.

(** The cursor returned by [execute]: the rows selected, and [lastrowid]. *)
Record Cursor : Type := {
  rows : list User;
  lastrowid : option Z
}.

(** The statements that [welcome] executes, with their parameters. *)
Inductive Statement : Type :=
  | SelectByCustomer (stripe_customer_id : string)
  | InsertUser (email stripe_customer_id plan api_key created_at : string).

(** Statements run on a connection: the message of the exception raised,
    or a value, and the connection afterwards. *)
Definition Db (A : Type) : Type := Connection → (string + A) * Connection.

Definition ret {A} (a : A) : Db A := λ c, (inr a, c).

Definition bind {A B} (m : Db A) (f : A → Db B) : Db B := λ c,
  match m c with
  | (inr a, c') => f a c'
  | (inl e, c') => (inl e, c')
  end.

(** [sqlite3.connect(DB)] *)
Definition connect (table : list User) : Connection :=
  {| committed := table; pending := table |}.

(** [id INTEGER PRIMARY KEY AUTOINCREMENT]: one more than the largest id. *)
Definition next_id (table : list User) : Z :=
  foldr Z.max 0 (user_id <$> table) + 1.

(** [c.execute(sql, parameters)]. The SELECT returns the rows of the
    customer in the order of the table; the INSERT appends a row with the
    next id, unless the [email], which is UNIQUE, is taken. *)
Definition execute (stmt : Statement) : Db Cursor := λ c,
  match stmt with
  | SelectByCustomer customer_id =>
      (inr {| rows := List.filter
                        (λ u, bool_decide
                                (user_stripe_customer_id u = customer_id))
                        (pending c);
              lastrowid := None |}, c)
  | InsertUser email customer_id plan api_key created_at =>
      if bool_decide (email ∈ user_email <$> pending c)
      then (inl "UNIQUE constraint failed: users.email", c)
      else
        let uid := next_id (pending c) in
        (inr {| rows := []; lastrowid := Some uid |},
         {| committed := committed c;
            pending := pending c
                       ++ [{| user_id := uid; user_email := email;
                              user_stripe_customer_id := customer_id;
                              user_plan := plan; user_api_key := api_key;
                              user_created_at := created_at |}] |})
  end.

(** [cursor.fetchone()] on a fresh cursor. *)
Definition fetchone (cur : Cursor) : option User := head (rows cur).

(** [c.lastrowid] where [c] is the connection: [lastrowid] is an attribute
    of cursors, a connection has none, so the lookup raises
    AttributeError. *)
Definition connection_lastrowid : Db Z := λ c,
  (inl "'sqlite3.Connection' object has no attribute 'lastrowid'", c).

(** [with db() as c: body]. On the way out the connection commits when the
    body ended normally and rolls back when it raised, and the exception
    goes on. The result is the outcome of the body and the table that is
    on disk afterwards. *)
Definition with_db {A} (table : list User) (body : Db A)
    : (string + A) * list User :=
  match body (connect table) with
  | (inr a, c) => (inr a, pending c)
  | (inl e, c) => (inl e, committed c)
  end.

End Sqlite.

(** A marketplace that is down, and one whose active search is down. *)
Definition down_world : World := λ c,
  Raise (RequestException "503 Server Error").

Definition half_world : World := λ c,
  match c with
  | findCompletedItems _ _ _ _ _ => Ok sold_items
  | findItemsAdvanced _ _ _ _ _ _ _ =>
      Raise (RequestException "Read timed out")
  end.

(** A user, and a Stripe that knows one checkout session of that customer
    and one of a new customer. *)
Definition demo_user : User :=
  {| user_id := 1; user_email := "ash@example.com";
     user_stripe_customer_id := "cus_1"; user_plan := "pro";
     user_api_key := "k1"; user_created_at := "2024-01-01T00:00:00" |}.

Definition demo_stripe : Stripe := λ sid,
  if bool_decide (sid = "cs_1")
  then inr {| customer_email := Some "ash@example.com";
              customer_id := "cus_1" |}
  else if bool_decide (sid = "cs_2")
  then inr {| customer_email := None; customer_id := "cus_2" |}
  else inl "No such checkout.session".

(** Listings without a usable price, and a sample of equal prices. *)
Definition unpriced_listing : RawListing :=
  listing "Charizard holo" "EndedWithSales" "GBP" "n/a".

Definition valueless_listing : RawListing :=
  {| raw_title := "Charizard holo"; raw_sellingState := "EndedWithSales";
     raw_currencyId := Some "GBP"; raw_value := None;
     raw_viewItemURL := "https://www.ebay.co.uk/itm/2"; raw_itemId := "2" |}.

Definition seven_tens : list Qc := replicate 7 (Qc_of_Z 10).

(** ** Binary64: the numbers as the interpreter has them

    In this module a Python [float] is an IEEE 754 binary64 number with
    round-to-nearest-even arithmetic: the primitive floats of the kernel,
    which compute bit for bit what the interpreter computes. The helpers
    and the two entry points are embedded on them a second time, for the
    properties that depend on rounding. *)

Module Binary64.

(** [float(n)] of an [int] below [2^63] in absolute value. *)
Definition of_int (n : Z) : float :=
  if (n <? 0)%Z then (- of_uint63 (Uint63.of_Z (- n)))%float
  else of_uint63 (Uint63.of_Z n).

(** [m * 2^e], exactly. *)
Definition dyadic (m : positive) (e : Z) : Qc :=
  if (0 <=? e)%Z then Qc_of_Z (Z.pos m * 2 ^ e)
  else Q2Qc (Z.pos m # Z.to_pos (2 ^ (- e))).

(** The value of a finite float. *)
Definition value (x : float) : option Qc :=
  match Prim2SF x with
  | S754_zero _ => Some 0%Qc
  | S754_finite s m e => Some (if s then (- dyadic m e)%Qc else dyadic m e)
  | S754_infinity _ | S754_nan => None
  end.

(** Truth value of [None | float]: [None], [0.0] and [-0.0] are false, and
    nan is true. *)
Definition truthy (x : option float) : bool :=
  match x with
  | None => false
  | Some v => negb (v =? 0)%float
  end.

(** [math.floor(x)] of a finite float. *)
Definition floor (x : float) : Z :=
  match Prim2SF x with
  | S754_finite s m e => Z.shiftl (if s then Z.neg m else Z.pos m) e
  | _ => 0
  end.

(** [round(x, 2)] as the interpreter computes it: the value of [x] is
    rounded, exactly and with ties to even, to a whole number of
    hundredths, and the result is the float nearest to that decimal, with
    the sign of [x]. Zeros, infinities and nan are returned as they are;
    so is a float of [2^46] or more, whose neighbours are more than a
    hundredth away. *)
Definition round2 (x : float) : float :=
  match Prim2SF x with
  | S754_finite s m e =>
      if bool_decide (Qc_of_Z (2 ^ 46) ≤ dyadic m e)%Qc then x
      else
        let cents := PyNum.round_half_even (dyadic m e * Qc_of_Z 100)%Qc in
        let r := (of_int cents / 100)%float in
        if s then (- r)%float else r
  | _ => x
  end.

(** Line 259 and 302. *)
Definition threshold_of (avg_price discount_percent : float) : float :=
  round2 (avg_price * (1 - discount_percent / 100))%float.

(** [x <= y] *)
Definition le (x y : float) : Prop := (x <=? y)%float = true.

Global Instance le_dec x y : Decision (le x y).
Proof. unfold le. apply _. Defined.

(** [sorted(l)]: a stable merge sort by [<=]; the prices sorted are
    positive, and no nan is among them. *)
Definition sorted (l : list float) : list float := merge_sort le l.

(** [statistics.median(data)] *)
Definition median (data : list float) : res float :=
  let data := sorted data in
  let n := PyNum.len data in
  if (n =? 0)%Z then Raise (StatisticsError "no median for empty data")
  else if (n mod 2 =? 1)%Z then PyNum.index data (n / 2)
  else
    let i := (n / 2)%Z in
    a ← PyNum.index data (i - 1);
    b ← PyNum.index data i;
    Ok ((a + b) / 2)%float.

(** Line 74: [max(1, math.floor(n*0.15))], the product being the binary64
    one (it is finite, so that [math.floor] does not raise). *)
Definition trim_of (n : Z) : Z := Z.max 1 (floor (of_int n * 0.15)%float).

(** The dict appended by [get_active_under]. *)
Record CleanListing : Type := {
  hit_id : string;
  hit_title : string;
  hit_price : float;
  hit_url : string
}.

(** The two requests. The [MaxPrice] filter is sent as [f"{max_price:.2f}"],
    which is the decimal that [round(_, 2)] was rounded to. *)
Inductive Call : Type :=
  | findCompletedItems (app_id keywords global_id category_id : string)
      (entries : Z)
  | findItemsAdvanced (app_id keywords global_id category_id : string)
      (max_price : float) (currency : string) (entries : Z).

Definition World : Type := Call → res (list RawListing).

Definition Net (A : Type) : Type := World → list Call → res A * list Call.

Global Instance Net_ret : MRet Net := λ A a w tr, (Ok a, tr).
Global Instance Net_bind : MBind Net := λ A B f m w tr,
  match m w tr with
  | (Ok a, tr') => f a w tr'
  | (Raise e, tr') => (Raise e, tr')
  end.

Definition raise {A} (e : exn) : Net A := λ w tr, (Raise e, tr).
Definition lift {A} (r : res A) : Net A := λ w tr, (r, tr).

Definition requests_get (c : Call) : Net (list RawListing) :=
  λ w tr, (w c, tr ++ [c]).

(** The form and the JSON body after the [int] / [float] conversions. *)
Record SearchForm : Type := {
  keywords : string;
  global_id : string;
  category_id : string;
  currency : string;
  sold_fetch : Z;
  min_sold : Z;
  discount_percent : float;
  active_fetch : Z;
  exclude_terms : string
}.

Record Result : Type := {
  note : option string;
  sold_count : Z;
  avg_price : option float;
  threshold : option float;
  hits : list CleanListing
}.

Record Page : Type := {
  page_results : option Result;
  page_flashes : list string
}.

Inductive ApiResponse : Type :=
  | ApiOk (r : Result)
  | ApiError (status : Z) (error : string).

Section Builtins.

(** The built-in [float(s)] on strings: [None] when it raises. *)
Variable py_float : string → option float.

(** The built-in [sum] on a list of floats. What it rounds to depends on
    the interpreter: additions from the left up to version 3.11,
    compensated summation from 3.12. *)
Variable py_sum : list float → float.

Definition trimmed_mean (prices : list float) : res (option float) :=
  match prices with
  | [] => Ok None
  | _ =>
      let prices_sorted := sorted prices in
      let n := PyNum.len prices_sorted in
      if (n <? 6)%Z then Some <$> median prices_sorted
      else
        let trim := trim_of n in
        let core :=
          if (n - 2 * trim >=? 3)%Z
          then PyNum.slice prices_sorted trim (n - trim)
          else prices_sorted in
        Some <$> match core with
                 | [] => median prices_sorted
                 | _ => Ok (py_sum core / of_int (PyNum.len core))%float
                 end
  end.

(** [float(price_obj.get("__value__", "0"))] *)
Definition price_of (it : RawListing) : option float :=
  py_float (default "0" (raw_value it)).

(** Body of the loop of [get_completed_prices]. *)
Definition completed_step (currency : string) (disallowed : list string)
    (prices : list float) (it : RawListing) : list float :=
  if contains_disallowed (raw_title it) disallowed then prices
  else if negb (bool_decide (raw_sellingState it = "EndedWithSales")) then prices
  else if negb (bool_decide (raw_currencyId it = Some currency)) then prices
  else match price_of it with
       | None => prices
       | Some price => if (0 <? price)%float then prices ++ [price] else prices
       end.

Definition get_completed_prices (app_id keywords global_id category_id
    currency : string) (sold_fetch : Z) (disallowed : list string)
    : Net (list float) :=
  items ← requests_get
    (findCompletedItems app_id keywords global_id category_id sold_fetch);
  mret (fold_left (completed_step currency disallowed) items []).

(** Body of the loop of [get_active_under]. *)
Definition active_step (currency : string) (disallowed : list string)
    (results : list CleanListing) (it : RawListing) : list CleanListing :=
  let title := raw_title it in
  if contains_disallowed title disallowed then results
  else if negb (bool_decide (raw_currencyId it = Some currency)) then results
  else match price_of it with
       | None => results
       | Some price =>
           if (price <=? 0)%float then results
           else results ++ [{| hit_id := raw_itemId it; hit_title := title;
                               hit_price := price;
                               hit_url := raw_viewItemURL it |}]
       end.

Definition get_active_under (app_id keywords global_id category_id
    currency : string) (active_fetch : Z) (max_price : float)
    (disallowed : list string) : Net (list CleanListing) :=
  items ← requests_get
    (findItemsAdvanced app_id keywords global_id category_id max_price
       currency active_fetch);
  mret (fold_left (active_step currency disallowed) items []).

(** [trimmed_mean(sold_prices) if sold_prices else None] *)
Definition estimate (sold_prices : list float) : res (option float) :=
  match sold_prices with
  | [] => Ok None
  | _ => trimmed_mean sold_prices
  end.

(** The [try] block of [dashboard], lines 248 to 261. *)
Definition dashboard_try (app_id : string) (form : SearchForm) : Net Result :=
  let disallowed := parse_terms (exclude_terms form) in
  if (discount_percent form <=? 0)%float
     || (100 <=? discount_percent form)%float
  then raise (ValueError "Discount % must be between 1 and 99.")
  else
    sold_prices ← get_completed_prices app_id (keywords form)
      (global_id form) (category_id form) (currency form) (sold_fetch form)
      disallowed;
    avg_price ← lift (estimate sold_prices);
    if negb (truthy avg_price) || (PyNum.len sold_prices <? min_sold form)%Z
    then
      mret {| note := Some ("Not enough sold data (got "
                            +:+ pretty (PyNum.len sold_prices) +:+ ").");
              sold_count := PyNum.len sold_prices;
              avg_price := avg_price;
              threshold := None;
              hits := [] |}
    else
      match avg_price with
      | None => raise (TypeError "unsupported operand type(s) for *")
      | Some avg =>
          let threshold := threshold_of avg (discount_percent form) in
          hits ← get_active_under app_id (keywords form) (global_id form)
            (category_id form) (currency form) (active_fetch form) threshold
            disallowed;
          mret {| note := None;
                  sold_count := PyNum.len sold_prices;
                  avg_price := Some (round2 avg);
                  threshold := Some threshold;
                  hits := hits |}
      end.

(** [dashboard] on a POST of a logged-in user. After the results are set,
    line 264 takes [int(discount_percent)] for the form that is echoed
    back; the validation has let only finite discounts and nan through, and
    [int] raises on nan: the message is then flashed and the page is
    rendered with the results. *)
Definition dashboard (EBAY_APP_ID : option string) (form : SearchForm)
    (w : World) : Page * list Call :=
  match EBAY_APP_ID with
  | Some app_id =>
      if PyStr.truthy app_id then
        match dashboard_try app_id form w [] with
        | (Ok results, tr) =>
            if is_nan (discount_percent form)
            then ({| page_results := Some results;
                     page_flashes :=
                       ["cannot convert float NaN to integer"] |}, tr)
            else ({| page_results := Some results; page_flashes := [] |}, tr)
        | (Raise e, tr) =>
            ({| page_results := None; page_flashes := [exn_str e] |}, tr)
        end
      else ({| page_results := None;
               page_flashes := ["Missing EBAY_APP_ID in Replit Secrets."] |}, [])
  | None => ({| page_results := None;
                page_flashes := ["Missing EBAY_APP_ID in Replit Secrets."] |}, [])
  end.

(** The [try] block of [api_search], lines 298 to 304. *)
Definition api_try (app_id : string) (data : SearchForm) : Net Result :=
  let disallowed := parse_terms (exclude_terms data) in
  sold_prices ← get_completed_prices app_id (keywords data)
    (global_id data) (category_id data) (currency data) (sold_fetch data)
    disallowed;
  avg_price ← lift (estimate sold_prices);
  if negb (truthy avg_price) || (PyNum.len sold_prices <? min_sold data)%Z
  then
    mret {| note := Some ("Not enough sold data ("
                          +:+ pretty (PyNum.len sold_prices) +:+ ").");
            sold_count := PyNum.len sold_prices;
            avg_price := avg_price;
            threshold := None;
            hits := [] |}
  else
    match avg_price with
    | None => raise (TypeError "unsupported operand type(s) for *")
    | Some avg =>
        let threshold := threshold_of avg (discount_percent data) in
        hits ← get_active_under app_id (keywords data) (global_id data)
          (category_id data) (currency data) (active_fetch data) threshold
          disallowed;
        mret {| note := None;
                sold_count := PyNum.len sold_prices;
                avg_price := Some (round2 avg);
                threshold := Some threshold;
                hits := hits |}
    end.

(** [api_search] for a body that converted: the key check, then the
    search. *)
Definition api_search (EBAY_APP_ID : option string) (user_keys : list string)
    (x_api_key : option string) (data : SearchForm) (w : World)
    : ApiResponse * list Call :=
  match x_api_key with
  | None => (ApiError 401 "Missing X-API-Key", [])
  | Some api_key =>
      if negb (PyStr.truthy api_key) then (ApiError 401 "Missing X-API-Key", [])
      else if negb (bool_decide (api_key ∈ user_keys))
      then (ApiError 403 "Invalid API key", [])
      else
        match EBAY_APP_ID with
        | None => (ApiError 500 "Server missing EBAY_APP_ID", [])
        | Some app_id =>
            if negb (PyStr.truthy app_id)
            then (ApiError 500 "Server missing EBAY_APP_ID", [])
            else
              match api_try app_id data w [] with
              | (Ok results, tr) => (ApiOk results, tr)
              | (Raise e, tr) => (ApiError 400 (exn_str e), tr)
              end
        end
  end.

(** What the active pass keeps of one listing. *)
Definition active_keep (currency : string) (disallowed : list string)
    (it : RawListing) : option CleanListing :=
  match price_of it with
  | Some price =>
      if negb (contains_disallowed (raw_title it) disallowed)
         && bool_decide (raw_currencyId it = Some currency)
         && negb (price <=? 0)%float
      then Some {| hit_id := raw_itemId it; hit_title := raw_title it;
                   hit_price := price; hit_url := raw_viewItemURL it |}
      else None
  | None => None
  end.

End Builtins.

(** [sum] as the interpreter computes it up to version 3.11. *)
Definition sum_left (l : list float) : float := fold_left PrimFloat.add l 0%float.

(** A reader of plain decimal literals with up to fifteen digits: the
    quotient of two integers that are floats is the float nearest to the
    decimal. *)
Definition decimal_float (s : string) : option float :=
  q ← decimal_float s;
  Some (of_int (Qnum (this q)) / of_int (Z.pos (Qden (this q))))%float.

(** The reader of the examples: it knows [nan] as well. *)
Definition sample_float (s : string) : option float :=
  if bool_decide (PyStr.lower (PyStr.strip s) = "nan") then Some nan
  else decimal_float s.

(** Fifteen sales at 5.27 GBP. *)
Definition sold_items : list RawListing :=
  replicate 15 (listing "Charizard holo 1999" "EndedWithSales" "GBP" "5.27").

(** Active listings: one at 2.50, one whose price reads [nan], one in a
    job lot. *)
Definition active_items : list RawListing :=
  [listing "Blastoise holo" "Active" "GBP" "2.50";
   listing "Squirtle holo" "Active" "GBP" "nan";
   listing "Blastoise job lot" "Active" "GBP" "1.00"].

(** A marketplace that answers the active search for a [MaxPrice] of 2.63
    and for no other. *)
Definition demo_world : World := λ c,
  match c with
  | findCompletedItems _ _ _ _ _ => Ok sold_items
  | findItemsAdvanced _ _ _ _ max_price _ _ =>
      if (max_price =? 2.63)%float then Ok active_items
      else Raise (RequestException "400 Client Error")
  end.

(** The defaults of the form, with a discount of 50. *)
Definition half_price_form : SearchForm :=
  {| keywords := "vintage pokemon cards holo";
     global_id := "EBAY-GB";
     category_id := "183454";
     currency := "GBP";
     sold_fetch := 50;
     min_sold := 12;
     discount_percent := 50;
     active_fetch := 50;
     exclude_terms := str_join "," DISALLOWED_DEFAULT |}.

Definition demo_hits : list CleanListing :=
  [{| hit_id := "1"; hit_title := "Blastoise holo"; hit_price := 2.5;
      hit_url := "https://www.ebay.co.uk/itm/1" |};
   {| hit_id := "1"; hit_title := "Squirtle holo"; hit_price := nan;
      hit_url := "https://www.ebay.co.uk/itm/1" |}].

Definition demo_calls : list Call :=
  [findCompletedItems "APP" "vintage pokemon cards holo" "EBAY-GB" "183454" 50;
   findItemsAdvanced "APP" "vintage pokemon cards holo" "EBAY-GB" "183454"
     2.63 "GBP" 50].

(** The result of that search: the mean of the 11 core prices, rounded, and
    half of it, rounded. *)
Definition demo_result : Result :=
  {| note := None; sold_count := 15; avg_price := Some 5.27%float;
     threshold := Some 2.63%float; hits := demo_hits |}.

End Binary64.

Section Pipeline.

(** The built-in [float(s)] on strings: [None] when it raises. *)
Variable py_float : string → option Qc.

(** [float(price_obj.get("__value__", "0"))] *)
Definition price_of (it : RawListing) : option Qc :=
  py_float (default "0" (raw_value it)).

(** Body of the loop of [get_completed_prices]. *)
Definition completed_step (currency : string) (disallowed : list string)
    (prices : list Qc) (it : RawListing) : list Qc :=
  if contains_disallowed (raw_title it) disallowed then prices
  else if negb (bool_decide (raw_sellingState it = "EndedWithSales")) then prices
  else if negb (bool_decide (raw_currencyId it = Some currency)) then prices
  else match price_of it with
       | None => prices
       | Some price =>
           if bool_decide (0 < price)%Qc then prices ++ [price] else prices
       end.

Definition get_completed_prices (app_id keywords global_id category_id
    currency : string) (sold_fetch : Z) (disallowed : list string)
    : Net (list Qc) :=
  items ← requests_get
    (findCompletedItems app_id keywords global_id category_id sold_fetch);
  mret (fold_left (completed_step currency disallowed) items []).

(** Body of the loop of [get_active_under]. *)
Definition active_step (currency : string) (disallowed : list string)
    (results : list CleanListing) (it : RawListing) : list CleanListing :=
  let title := raw_title it in
  if contains_disallowed title disallowed then results
  else if negb (bool_decide (raw_currencyId it = Some currency)) then results
  else match price_of it with
       | None => results
       | Some price =>
           if bool_decide (price ≤ 0)%Qc then results
           else results ++ [{| hit_id := raw_itemId it; hit_title := title;
                               hit_price := price;
                               hit_url := raw_viewItemURL it |}]
       end.

Definition get_active_under (app_id keywords global_id category_id
    currency : string) (active_fetch : Z) (max_price : Qc)
    (disallowed : list string) : Net (list CleanListing) :=
  items ← requests_get
    (findItemsAdvanced app_id keywords global_id category_id max_price
       currency active_fetch);
  mret (fold_left (active_step currency disallowed) items []).

(** [trimmed_mean(sold_prices) if sold_prices else None] *)
Definition estimate (sold_prices : list Qc) : res (option Qc) :=
  match sold_prices with
  | [] => Ok None
  | _ => trimmed_mean sold_prices
  end.

(** The [try] block of [dashboard], lines 248 to 261, for a form whose
    numeric fields converted. *)
Definition dashboard_try (app_id : string) (form : SearchForm) : Net Result :=
  let disallowed := parse_terms (exclude_terms form) in
  if bool_decide (discount_percent form ≤ 0)%Qc
     || bool_decide (Qc_of_Z 100 ≤ discount_percent form)%Qc
  then raise (ValueError "Discount % must be between 1 and 99.")
  else
    sold_prices ← get_completed_prices app_id (keywords form)
      (global_id form) (category_id form) (currency form) (sold_fetch form)
      disallowed;
    avg_price ← lift (estimate sold_prices);
    if negb (PyNum.truthy avg_price)
       || (PyNum.len sold_prices <? min_sold form)
    then
      mret {| note := Some ("Not enough sold data (got "
                            +:+ pretty (PyNum.len sold_prices) +:+ ").");
              sold_count := PyNum.len sold_prices;
              avg_price := avg_price;
              threshold := None;
              hits := [] |}
    else
      match avg_price with
      | None => raise (TypeError "unsupported operand type(s) for *")
      | Some avg =>
          let threshold := threshold_of avg (discount_percent form) in
          hits ← get_active_under app_id (keywords form) (global_id form)
            (category_id form) (currency form) (active_fetch form) threshold
            disallowed;
          mret {| note := None;
                  sold_count := PyNum.len sold_prices;
                  avg_price := Some (PyNum.round2 avg);
                  threshold := Some threshold;
                  hits := hits |}
      end.

(** [dashboard] on a POST of a logged-in user. Every exception of the
    [try] block is flashed and the page is rendered without results. The
    [state] that echoes the form back is left out. *)
Definition dashboard (EBAY_APP_ID : option string) (form : SearchForm)
    (w : World) : Page * list Call :=
  match EBAY_APP_ID with
  | Some app_id =>
      if PyStr.truthy app_id then
        match dashboard_try app_id form w [] with
        | (Ok results, tr) =>
            ({| page_results := Some results; page_flashes := [] |}, tr)
        | (Raise e, tr) =>
            ({| page_results := None; page_flashes := [exn_str e] |}, tr)
        end
      else ({| page_results := None;
               page_flashes := ["Missing EBAY_APP_ID in Replit Secrets."] |}, [])
  | None => ({| page_results := None;
                page_flashes := ["Missing EBAY_APP_ID in Replit Secrets."] |}, [])
  end.

(** The [try] block of [api_search], lines 298 to 304. *)
Definition api_try (app_id : string) (data : SearchForm) : Net Result :=
  let disallowed := parse_terms (exclude_terms data) in
  sold_prices ← get_completed_prices app_id (keywords data)
    (global_id data) (category_id data) (currency data) (sold_fetch data)
    disallowed;
  avg_price ← lift (estimate sold_prices);
  if negb (PyNum.truthy avg_price)
     || (PyNum.len sold_prices <? min_sold data)
  then
    mret {| note := Some ("Not enough sold data ("
                          +:+ pretty (PyNum.len sold_prices) +:+ ").");
            sold_count := PyNum.len sold_prices;
            avg_price := avg_price;
            threshold := None;
            hits := [] |}
  else
    match avg_price with
    | None => raise (TypeError "unsupported operand type(s) for *")
    | Some avg =>
        let threshold := threshold_of avg (discount_percent data) in
        hits ← get_active_under app_id (keywords data) (global_id data)
          (category_id data) (currency data) (active_fetch data) threshold
          disallowed;
        mret {| note := None;
                sold_count := PyNum.len sold_prices;
                avg_price := Some (PyNum.round2 avg);
                threshold := Some threshold;
                hits := hits |}
    end.

(** [api_search]: the key check against the [api_key] column of [users],
    then the search. *)
Definition api_search (EBAY_APP_ID : option string) (user_keys : list string)
    (x_api_key : option string) (data : SearchForm) (w : World)
    : ApiResponse * list Call :=
  match x_api_key with
  | None => (ApiError 401 "Missing X-API-Key", [])
  | Some api_key =>
      if negb (PyStr.truthy api_key) then (ApiError 401 "Missing X-API-Key", [])
      else if negb (bool_decide (api_key ∈ user_keys))
      then (ApiError 403 "Invalid API key", [])
      else
        match EBAY_APP_ID with
        | None => (ApiError 500 "Server missing EBAY_APP_ID", [])
        | Some app_id =>
            if negb (PyStr.truthy app_id)
            then (ApiError 500 "Server missing EBAY_APP_ID", [])
            else
              match api_try app_id data w [] with
              | (Ok results, tr) => (ApiOk results, tr)
              | (Raise e, tr) => (ApiError 400 (exn_str e), tr)
              end
        end
  end.

(** Lines 203 to 211, the body of the [with] block of [welcome]: the id of
    the row of the customer, or else the INSERT followed by
    [uid = c.lastrowid], where [c] is the connection. [token_urlsafe] and
    [utcnow_isoformat] are what [secrets.token_urlsafe(24)] and
    [datetime.datetime.utcnow().isoformat()] give during the visit. *)
Definition upsert_user (token_urlsafe utcnow_isoformat : string)
    (email customer_id : string) : Sqlite.Db Z :=
  Sqlite.bind (Sqlite.execute (Sqlite.SelectByCustomer customer_id)) (λ cur,
    match Sqlite.fetchone cur with
    | Some row => Sqlite.ret (user_id row)
    | None =>
        let api_key := token_urlsafe in
        Sqlite.bind
          (Sqlite.execute
             (Sqlite.InsertUser email customer_id "pro" api_key
                utcnow_isoformat))
          (λ _, Sqlite.connection_lastrowid)
    end).

(** [welcome]: the answer, the session and the [users] table afterwards.
    Every exception of the [try] block, those of Stripe and of the database
    alike, is answered with status 400 and its message. *)
Definition welcome (stripe : Stripe) (token_urlsafe utcnow_isoformat : string)
    (session_id : option string) (session : Session) (users : list User)
    : WelcomeResponse * Session * list User :=
  match session_id with
  | None => (RedirectPricing, session, users)
  | Some sid =>
      if negb (PyStr.truthy sid) then (RedirectPricing, session, users)
      else
        match stripe sid with
        | inl e =>
            (WelcomeError 400 ("Error verifying Stripe session: " +:+ e),
             session, users)
        | inr customer =>
            let customer_id := customer_id customer in
            let email :=
              match customer_email customer with
              | Some email =>
                  if PyStr.truthy email then email
                  else "user-" +:+ customer_id +:+ "@example.local"
              | None => "user-" +:+ customer_id +:+ "@example.local"
              end in
            match Sqlite.with_db users
                    (upsert_user token_urlsafe utcnow_isoformat email
                       customer_id) with
            | (inr uid, users') =>
                (RenderWelcome, <["uid" := uid]> session, users')
            | (inl e, users') =>
                (WelcomeError 400 ("Error verifying Stripe session: " +:+ e),
                 session, users')
            end
        end
  end.

(** ** Specification-side definitions *)

(** [sub] occurs in [s] as a substring. *)
Definition is_substring (sub s : string) : Prop :=
  ∃ pre post, s = pre +:+ sub +:+ post.

(** Remove [k] elements from each end. *)
Definition drop_both_ends {A} (k : nat) (l : list A) : list A :=
  reverse (drop k (reverse (drop k l))).

(** Sum divided by count. *)
Definition arithmetic_mean (l : list Qc) : Qc :=
  (foldr Qcplus 0 l / Qc_of_Z (Z.of_nat (length l)))%Qc.

(** Median of a sorted sequence: the middle value, or the average of the
    two middle values when the count is even. *)
Definition median_of_sorted (l : list Qc) : Qc :=
  let n := length l in
  if Nat.even n
  then ((nth (n / 2 - 1) l 0 + nth (n / 2) l 0) / Qc_of_Z 2)%Qc
  else nth (n / 2) l 0%Qc.

(** The invariant of a result: hits only with enough sales and an average,
    and otherwise no threshold, no hits and a note. *)
Definition result_invariant (min_sold : Z) (r : Result) : Prop :=
  (hits r ≠ [] → min_sold ≤ sold_count r ∧ is_Some (avg_price r))
  ∧ (¬ (min_sold ≤ sold_count r ∧ is_Some (avg_price r)) →
     threshold r = None ∧ hits r = [] ∧ is_Some (note r)).

(** The route [/dashboard]: [login_required] around the view; a GET renders
    the form without results. *)
Definition dashboard_route (EBAY_APP_ID : option string) (session : Session)
    (users : list User) (method : Method) (form : SearchForm) (w : World)
    : DashboardResponse * list Call :=
  login_required (RedirectIndex, [])
    (match method with
     | POST =>
         let '(page, tr) := dashboard EBAY_APP_ID form w in
         (RenderDashboard page, tr)
     | GET =>
         (RenderDashboard {| page_results := None; page_flashes := [] |}, [])
     end)
    session users.

(** The route [/api/search] on the [users] table. *)
Definition api_search_route (EBAY_APP_ID : option string) (users : list User)
    (x_api_key : option string) (data : SearchForm) (w : World)
    : ApiResponse * list Call :=
  api_search EBAY_APP_ID (user_api_key <$> users) x_api_key data w.

(** What each pass keeps of one listing. *)
Definition completed_keep (currency : string) (disallowed : list string)
    (it : RawListing) : option Qc :=
  match price_of it with
  | Some price =>
      if negb (contains_disallowed (raw_title it) disallowed)
         && bool_decide (raw_sellingState it = "EndedWithSales")
         && bool_decide (raw_currencyId it = Some currency)
         && bool_decide (0 < price)%Qc
      then Some price else None
  | None => None
  end.

Definition active_keep (currency : string) (disallowed : list string)
    (it : RawListing) : option CleanListing :=
  match price_of it with
  | Some price =>
      if negb (contains_disallowed (raw_title it) disallowed)
         && bool_decide (raw_currencyId it = Some currency)
         && bool_decide (0 < price)%Qc
      then Some {| hit_id := raw_itemId it; hit_title := raw_title it;
                   hit_price := price; hit_url := raw_viewItemURL it |}
      else None
  | None => None
  end.

(** A string that does not begin with white space. *)
Definition starts_clean (s : string) : Prop :=
  match s with
  | EmptyString => True
  | String c _ => PyStr.is_space c = false
  end.

(** A term without a comma. *)
Definition comma_free (t : string) : Prop := ¬ is_substring "," t.

(** ** Strings *)

Lemma startswith_spec p s :
  PyStr.startswith p s = true ↔ ∃ rest, s = p +:+ rest.
Proof.
  revert s. induction p as [|a p IH]; intros s; simpl.
  - split; [intros _; by exists s | done].
  - destruct s as [|b s]; simpl.
    + split; [done | intros [rest Hr]; discriminate].
    + rewrite andb_true_iff, bool_decide_eq_true, IH. split.
      * intros [-> [rest ->]]. by exists rest.
      * intros [rest Hr]. injection Hr as -> ->. eauto.
Qed.

Lemma contains_spec sub s :
  PyStr.contains sub s = true ↔ is_substring sub s.
Proof.
  unfold is_substring. induction s as [|c s IH]; simpl.
  - rewrite orb_false_r, startswith_spec. split.
    + intros [rest Hr]. by exists EmptyString, rest.
    + intros [[|a pre] [post Hp]]; [by exists post | discriminate].
  - rewrite orb_true_iff, startswith_spec, IH. split.
    + intros [[rest Hr] | (pre & post & Hs)].
      * by exists EmptyString, rest.
      * exists (String c pre), post. simpl. by rewrite Hs.
    + intros [[|a pre] [post Hp]].
      * left. by exists post.
      * right. simpl in Hp. injection Hp as -> ->. eauto.
Qed.

Lemma lower_ascii_idemp c :
  PyStr.lower_ascii (PyStr.lower_ascii c) = PyStr.lower_ascii c.
Proof.
  destruct c as [[] [] [] [] [] [] [] []]; reflexivity.
Qed.

Lemma lower_idemp s : PyStr.lower (PyStr.lower s) = PyStr.lower s.
Proof.
  induction s as [|c s IH]; simpl; [done|].
  by rewrite lower_ascii_idemp, IH.
Qed.

Lemma contains_disallowed_spec title disallowed :
  contains_disallowed title disallowed = true
  ↔ ∃ term, term ∈ disallowed ∧ is_substring term (PyStr.lower title).
Proof.
  unfold contains_disallowed. rewrite existsb_exists. split.
  - intros (term & Hin & Hc). exists term. split.
    + by apply list_elem_of_In.
    + by apply contains_spec.
  - intros (term & Hin & Hc). exists term. split.
    + by apply list_elem_of_In.
    + by apply contains_spec.
Qed.

Lemma parse_terms_spec exclude_terms term :
  term ∈ parse_terms exclude_terms
  ↔ ∃ t, t ∈ PyStr.split "," exclude_terms
         ∧ PyStr.strip t ≠ EmptyString
         ∧ term = PyStr.lower (PyStr.strip t).
Proof.
  unfold parse_terms. rewrite list_elem_of_fmap. split.
  - intros (t & -> & Ht). exists t.
    apply list_elem_of_In, filter_In in Ht as [Ht Hs].
    unfold PyStr.truthy in Hs. rewrite negb_true_iff, bool_decide_eq_false in Hs.
    by rewrite list_elem_of_In.
  - intros (t & Ht & Hs & ->). exists t. split; [done|].
    apply list_elem_of_In, filter_In. split; [by apply list_elem_of_In|].
    unfold PyStr.truthy. by rewrite negb_true_iff, bool_decide_eq_false.
Qed.

Lemma parse_terms_lowered exclude_terms term :
  term ∈ parse_terms exclude_terms → PyStr.lower term = term.
Proof.
  rewrite parse_terms_spec. intros (t & _ & _ & ->). apply lower_idemp.
Qed.

(** ** Sorting *)

Lemma sorted_perm l : PyNum.sorted l ≡ₚ l.
Proof. apply merge_sort_Permutation. Qed.

Lemma sorted_ascending l : StronglySorted Qcle (PyNum.sorted l).
Proof. apply (StronglySorted_merge_sort _). Qed.

Lemma sorted_length l : length (PyNum.sorted l) = length l.
Proof. by rewrite sorted_perm. Qed.

Lemma len_sorted l : PyNum.len (PyNum.sorted l) = PyNum.len l.
Proof. unfold PyNum.len. by rewrite sorted_length. Qed.

Lemma sorted_idemp l : PyNum.sorted (PyNum.sorted l) = PyNum.sorted l.
Proof.
  apply (StronglySorted_unique Qcle); auto using sorted_ascending, sorted_perm.
Qed.

Lemma sorted_Forall (P : Qc → Prop) l : Forall P l → Forall P (PyNum.sorted l).
Proof. intros H. by rewrite sorted_perm. Qed.

(** ** The trim count *)

Lemma floor_015 n : PyNum.floor (Qc_of_Z n * Q2Qc (15 # 100))%Qc = 3 * n / 20.
Proof.
  unfold PyNum.floor. simpl.
  rewrite (Qfloor_comp _ _ (Qred_correct _)).
  change (Qred (15 # 100)) with (3 # 20)%Q.
  unfold Qfloor, Qmult, inject_Z. simpl.
  f_equal. lia.
Qed.

Lemma trim_of_eq n : trim_of n = Z.max 1 (3 * n / 20).
Proof. unfold trim_of. by rewrite floor_015. Qed.

Lemma trim_of_bounds n : 6 ≤ n → 1 ≤ trim_of n ∧ 3 ≤ n - 2 * trim_of n.
Proof.
  intros Hn. rewrite trim_of_eq.
  pose proof (Z.mul_div_le (3 * n) 20). lia.
Qed.

(** ** Slices *)

Lemma slice_take_drop {A} (l : list A) (a b : Z) :
  0 ≤ a → a ≤ b → b ≤ PyNum.len l →
  PyNum.slice l a b = take (Z.to_nat (b - a)) (drop (Z.to_nat a) l).
Proof.
  intros Ha Hab Hb. unfold PyNum.slice, PyNum.clamp.
  destruct (Z.ltb_spec a 0), (Z.ltb_spec b 0); try lia.
  by rewrite !Z.min_l by lia.
Qed.

Lemma drop_both_ends_take_drop {A} (k : nat) (l : list A) :
  drop_both_ends k l = take (length l - k - k) (drop k l).
Proof.
  unfold drop_both_ends.
  by rewrite drop_reverse, reverse_involutive, length_drop.
Qed.

Lemma slice_drop_both_ends {A} (l : list A) (k : Z) :
  0 ≤ k → 2 * k ≤ PyNum.len l →
  PyNum.slice l k (PyNum.len l - k) = drop_both_ends (Z.to_nat k) l.
Proof.
  intros Hk Hl. rewrite slice_take_drop by lia.
  rewrite drop_both_ends_take_drop. unfold PyNum.len in *. f_equal. lia.
Qed.

Lemma length_drop_both_ends {A} (k : nat) (l : list A) :
  length (drop_both_ends k l) = (length l - k - k)%nat.
Proof.
  rewrite drop_both_ends_take_drop, length_take, length_drop. lia.
Qed.

(** ** Sums and means *)

Lemma sum_foldr l : PyNum.sum l = foldr Qcplus 0%Qc l.
Proof.
  unfold PyNum.sum. apply fold_symmetric.
  - intros x y z. ring.
  - intros y. ring.
Qed.

Lemma mean_arithmetic l :
  (PyNum.sum l / Qc_of_Z (PyNum.len l))%Qc = arithmetic_mean l.
Proof. unfold arithmetic_mean. by rewrite sum_foldr. Qed.

Lemma foldr_pos l : Forall (λ x, 0 < x)%Qc l → l ≠ [] → (0 < foldr Qcplus 0 l)%Qc.
Proof.
  induction 1 as [|x l Hx Hl IH]; [done|]. intros _. simpl.
  destruct l as [|y l].
  - simpl. by rewrite Qcplus_0_r.
  - apply Qcplus_pos_pos; [done|]. by apply IH.
Qed.

Lemma Qcdiv_pos (x y : Qc) : (0 < x → 0 < y → 0 < x / y)%Qc.
Proof.
  intros Hx Hy. unfold Qcdiv. apply Qcmult_pos_pos; [done|]. by apply Qcinv_pos.
Qed.

Lemma arithmetic_mean_pos l :
  Forall (λ x, 0 < x)%Qc l → l ≠ [] → (0 < arithmetic_mean l)%Qc.
Proof.
  intros Hl Hne. unfold arithmetic_mean. apply Qcdiv_pos.
  - by apply foldr_pos.
  - rewrite <- Z2Qc_inj_0. apply (proj1 (Z2Qc_inj_lt 0 _)).
    destruct l; [done|cbn [length]; lia].
Qed.

(** ** The median *)

Lemma index_nth {A} (l : list A) (i : nat) (d : A) :
  (i < length l)%nat → PyNum.index l (Z.of_nat i) = Ok (nth i l d).
Proof.
  intros Hi. unfold PyNum.index.
  destruct (Z.ltb_spec (Z.of_nat i) 0) as [|_]; [lia|].
  destruct (Z.ltb_spec (Z.of_nat i) 0) as [|_]; [lia|].
  rewrite Nat2Z.id.
  destruct (nth_lookup_or_length l i d) as [-> | ?]; [done | lia].
Qed.

Lemma even_mod2 (k : nat) :
  (Z.of_nat k mod 2 =? 1) = negb (Nat.even k).
Proof.
  rewrite <- Nat.negb_odd, negb_involutive.
  destruct (Nat.odd k) eqn:Hodd.
  - apply Nat.odd_spec in Hodd as [m ->]. apply Z.eqb_eq.
    rewrite Nat2Z.inj_add, Nat2Z.inj_mul, Z.add_comm, Z.mul_comm.
    by rewrite Z.mod_add.
  - apply Z.eqb_neq. rewrite <- Nat.negb_even, negb_false_iff in Hodd.
    apply Nat.even_spec in Hodd as [m ->].
    rewrite Nat2Z.inj_mul, Z.mul_comm. by rewrite Z.mod_mul.
Qed.

Lemma median_of_sorted_ok l :
  l ≠ [] → PyNum.median l = Ok (median_of_sorted (PyNum.sorted l)).
Proof.
  intros Hne. unfold PyNum.median, median_of_sorted, PyNum.len.
  set (d := PyNum.sorted l).
  assert (0 < length d)%nat as Hpos.
  { unfold d. rewrite sorted_length. destruct l; [done | simpl; lia]. }
  destruct (Z.eqb_spec (Z.of_nat (length d)) 0) as [|_]; [lia|].
  rewrite even_mod2.
  change (Z.of_nat (length d) `div` 2)
    with (Z.of_nat (length d) `div` Z.of_nat 2).
  rewrite <- Nat2Z.inj_div.
  destruct (Nat.even (length d)) eqn:Heven; cbn [negb].
  - apply Nat.even_spec in Heven as [m Hm].
    assert (length d `div` 2 = m)%nat as Hdiv.
    { rewrite Hm, Nat.mul_comm. by apply Nat.div_mul. }
    rewrite Hdiv.
    replace (Z.of_nat m - 1) with (Z.of_nat (m - 1)) by lia.
    rewrite (index_nth d (m - 1) 0%Qc) by lia.
    rewrite (index_nth d m 0%Qc) by lia.
    done.
  - apply index_nth.
    apply Nat.div_lt; lia.
Qed.

Lemma nth_Forall {A} (P : A → Prop) (l : list A) (i : nat) (d : A) :
  Forall P l → (i < length l)%nat → P (nth i l d).
Proof.
  intros Hl Hi. rewrite Forall_forall in Hl. by apply Hl, list_elem_of_In, nth_In.
Qed.

Lemma median_of_sorted_pos l :
  Forall (λ x, 0 < x)%Qc l → l ≠ [] → (0 < median_of_sorted l)%Qc.
Proof.
  intros Hl Hne. unfold median_of_sorted.
  assert (0 < length l)%nat as Hpos by (destruct l; [done | simpl; lia]).
  assert (length l `div` 2 < length l)%nat as Hhalf by (apply Nat.div_lt; lia).
  destruct (Nat.even (length l)).
  - apply Qcdiv_pos; [|done].
    apply Qcplus_pos_pos; apply nth_Forall; auto; lia.
  - by apply nth_Forall.
Qed.

(** ** The estimator *)

Lemma len_pos {A} (l : list A) : l ≠ [] → 0 < PyNum.len l.
Proof. unfold PyNum.len. destruct l; [done | cbn [length]; lia]. Qed.

Lemma len_nonneg {A} (l : list A) : 0 ≤ PyNum.len l.
Proof. unfold PyNum.len. lia. Qed.

Lemma trimmed_mean_short prices :
  prices ≠ [] → PyNum.len prices < 6 →
  trimmed_mean prices = Ok (Some (median_of_sorted (PyNum.sorted prices))).
Proof.
  intros Hne Hlen. unfold trimmed_mean. destruct prices as [|p ps]; [done|].
  rewrite len_sorted.
  destruct (Z.ltb_spec (PyNum.len (p :: ps)) 6) as [_|]; [|lia].
  rewrite median_of_sorted_ok.
  - by rewrite sorted_idemp.
  - intros Hnil. apply (f_equal length) in Hnil.
    rewrite sorted_length in Hnil. done.
Qed.

Lemma select_core_large prices_sorted :
  6 ≤ PyNum.len prices_sorted →
  select_core prices_sorted (PyNum.len prices_sorted)
    (trim_of (PyNum.len prices_sorted))
  = drop_both_ends (Z.to_nat (trim_of (PyNum.len prices_sorted))) prices_sorted.
Proof.
  intros Hn. destruct (trim_of_bounds _ Hn) as [H1 H3].
  unfold select_core. rewrite Z.geb_leb.
  destruct (Z.leb_spec 3 (PyNum.len prices_sorted
                          - 2 * trim_of (PyNum.len prices_sorted))); [|lia].
  apply slice_drop_both_ends; lia.
Qed.

Lemma core_estimate_mean core prices_sorted :
  core ≠ [] → core_estimate core prices_sorted = Ok (arithmetic_mean core).
Proof.
  intros Hne. destruct core; [done|].
  unfold core_estimate. by rewrite mean_arithmetic.
Qed.

Lemma trimmed_mean_long prices :
  6 ≤ PyNum.len prices →
  trimmed_mean prices
  = Ok (Some (arithmetic_mean
                (drop_both_ends (Z.to_nat (trim_of (PyNum.len prices)))
                   (PyNum.sorted prices))))
  ∧ (3 ≤ length (drop_both_ends (Z.to_nat (trim_of (PyNum.len prices)))
                   (PyNum.sorted prices)))%nat.
Proof.
  intros Hn. destruct (trim_of_bounds _ Hn) as [H1 H3].
  assert (3 ≤ length (drop_both_ends (Z.to_nat (trim_of (PyNum.len prices)))
                        (PyNum.sorted prices)))%nat as Hcore.
  { rewrite length_drop_both_ends, sorted_length. unfold PyNum.len in *. lia. }
  split; [|done].
  unfold trimmed_mean. destruct prices as [|p ps]; [unfold PyNum.len in Hn; simpl in Hn; lia|].
  rewrite len_sorted in *.
  destruct (Z.ltb_spec (PyNum.len (p :: ps)) 6) as [|_]; [lia|].
  rewrite <- (len_sorted (p :: ps)) at 1 2.
  rewrite select_core_large by (by rewrite len_sorted).
  rewrite len_sorted.
  rewrite core_estimate_mean; [done|].
  intros Hnil. rewrite Hnil in Hcore. simpl in Hcore. lia.
Qed.

(** The estimator always returns, and a sample of positive prices has a
    positive estimate. *)
Lemma trimmed_mean_pos prices :
  prices ≠ [] → Forall (λ x, 0 < x)%Qc prices →
  ∃ est, trimmed_mean prices = Ok (Some est) ∧ (0 < est)%Qc.
Proof.
  intros Hne Hpos.
  destruct (Z.lt_ge_cases (PyNum.len prices) 6) as [Hlt | Hge].
  - eexists. split; [by apply trimmed_mean_short|].
    apply median_of_sorted_pos; [by apply sorted_Forall|].
    intros Hnil. apply (f_equal length) in Hnil.
    rewrite sorted_length in Hnil. by destruct prices.
  - destruct (trimmed_mean_long prices Hge) as [-> Hcore].
    eexists. split; [done|].
    apply arithmetic_mean_pos.
    + rewrite drop_both_ends_take_drop.
      by apply Forall_take, Forall_drop, sorted_Forall.
    + intros Hnil. rewrite Hnil in Hcore. simpl in Hcore. lia.
Qed.

Lemma trimmed_mean_total prices : ∃ est, trimmed_mean prices = Ok est.
Proof.
  destruct prices as [|p ps]; [by exists None|].
  destruct (Z.lt_ge_cases (PyNum.len (p :: ps)) 6) as [Hlt | Hge].
  - eexists. by apply trimmed_mean_short.
  - eexists. by apply trimmed_mean_long.
Qed.

(** ** Rounding *)

Ltac qc2q :=
  unfold Qcle, Qclt, Qcminus, Qcplus, Qcopp, Qcdiv, Qcmult, Qcinv, Q2Qc in *;
  cbn [this Qc_of_Z] in *;
  rewrite ?Qred_correct in *.

(** The rounded value is an integer at most one half away. *)
Lemma round_half_even_near (x : Qc) :
  (Qc_of_Z (PyNum.round_half_even x) - 1 / 2 ≤ x
   ∧ x ≤ Qc_of_Z (PyNum.round_half_even x) + 1 / 2)%Qc.
Proof.
  unfold PyNum.round_half_even.
  pose proof (Qfloor_le x) as Hlo. pose proof (Qlt_floor x) as Hhi.
  rewrite inject_Z_plus in Hhi.
  repeat case_decide; repeat case_match; qc2q.
  all: try rewrite inject_Z_plus.
  all: change (inject_Z 1) with 1%Q in *.
  all: change (1 * / (1 + 1))%Q with (1 # 2)%Q in *.
  all: split; lra.
Qed.

(** ** Running the helpers *)

Lemma get_completed_prices_run app_id kw gid cat cur n dis w tr :
  get_completed_prices app_id kw gid cat cur n dis w tr
  = ((λ items, fold_left (completed_step cur dis) items [])
       <$> w (findCompletedItems app_id kw gid cat n),
     tr ++ [findCompletedItems app_id kw gid cat n]).
Proof.
  unfold get_completed_prices, mbind, Net_bind, requests_get.
  by destruct (w _).
Qed.

Lemma get_active_under_run app_id kw gid cat cur n max_price dis w tr :
  get_active_under app_id kw gid cat cur n max_price dis w tr
  = ((λ items, fold_left (active_step cur dis) items [])
       <$> w (findItemsAdvanced app_id kw gid cat max_price cur n),
     tr ++ [findItemsAdvanced app_id kw gid cat max_price cur n]).
Proof.
  unfold get_active_under, mbind, Net_bind, requests_get.
  by destruct (w _).
Qed.

Lemma estimate_trimmed_mean sold_prices :
  estimate sold_prices = trimmed_mean sold_prices.
Proof. by destruct sold_prices. Qed.

Lemma completed_step_pos cur dis prices it :
  Forall (λ x, 0 < x)%Qc prices →
  Forall (λ x, 0 < x)%Qc (completed_step cur dis prices it).
Proof.
  intros Hp. unfold completed_step.
  repeat case_match; try done.
  apply Forall_app. split; [done|].
  apply Forall_singleton. by eapply bool_decide_eq_true_1.
Qed.

Lemma completed_prices_pos cur dis items prices :
  Forall (λ x, 0 < x)%Qc prices →
  Forall (λ x, 0 < x)%Qc (fold_left (completed_step cur dis) items prices).
Proof.
  revert prices. induction items as [|it items IH]; intros prices Hp; simpl.
  - done.
  - by apply IH, completed_step_pos.
Qed.

(** The estimate of the filtered sales is never zero. *)
Lemma estimate_sold cur dis items :
  let sold := fold_left (completed_step cur dis) items [] in
  (sold = [] ∧ estimate sold = Ok None)
  ∨ (sold ≠ [] ∧ ∃ avg, estimate sold = Ok (Some avg) ∧ (0 < avg)%Qc).
Proof.
  intros sold. destruct (decide (sold = [])) as [Hnil | Hne].
  - left. by rewrite Hnil.
  - right. split; [done|]. rewrite estimate_trimmed_mean.
    apply trimmed_mean_pos; [done|]. by apply completed_prices_pos.
Qed.

Lemma Qc_pos_truthy (avg : Qc) : (0 < avg)%Qc → PyNum.truthy (Some avg) = true.
Proof.
  intros Hpos. unfold PyNum.truthy.
  rewrite negb_true_iff, bool_decide_eq_false.
  intros ->. by apply Qclt_not_eq in Hpos.
Qed.

Lemma valid_discount (d : Qc) :
  (0 < d)%Qc → (d < Qc_of_Z 100)%Qc →
  bool_decide (d ≤ 0)%Qc || bool_decide (Qc_of_Z 100 ≤ d)%Qc = false.
Proof.
  intros H0 H100. apply orb_false_iff.
  split; apply bool_decide_eq_false; by apply Qclt_not_le.
Qed.

Ltac run_net :=
  unfold mbind, Net_bind, mret, Net_ret, lift, raise;
  rewrite ?get_completed_prices_run, ?get_active_under_run.

(** ** The two outcomes of a search *)

Lemma api_try_insufficient app_id data w tr items est :
  w (findCompletedItems app_id (keywords data) (global_id data)
       (category_id data) (sold_fetch data)) = Ok items →
  let sold := fold_left (completed_step (currency data)
                           (parse_terms (exclude_terms data))) items [] in
  estimate sold = Ok est →
  negb (PyNum.truthy est) || (PyNum.len sold <? min_sold data) = true →
  api_try app_id data w tr
  = (Ok {| note := Some ("Not enough sold data ("
                         +:+ pretty (PyNum.len sold) +:+ ").");
           sold_count := PyNum.len sold; avg_price := est;
           threshold := None; hits := [] |},
     tr ++ [findCompletedItems app_id (keywords data) (global_id data)
              (category_id data) (sold_fetch data)]).
Proof.
  intros Hw sold Hest Hcond. unfold api_try. run_net.
  rewrite Hw. cbn [fmap res_fmap]. fold sold. by rewrite Hest, Hcond.
Qed.

Lemma dashboard_try_invalid app_id form w tr :
  (discount_percent form ≤ 0 ∨ Qc_of_Z 100 ≤ discount_percent form)%Qc →
  dashboard_try app_id form w tr
  = (Raise (ValueError "Discount % must be between 1 and 99."), tr).
Proof.
  intros Hd. unfold dashboard_try.
  assert (bool_decide (discount_percent form ≤ 0)%Qc
          || bool_decide (Qc_of_Z 100 ≤ discount_percent form)%Qc = true) as ->.
  { apply orb_true_iff. destruct Hd; [left | right]; by apply bool_decide_eq_true. }
  done.
Qed.

Lemma dashboard_try_insufficient app_id form w tr items est :
  (0 < discount_percent form)%Qc → (discount_percent form < Qc_of_Z 100)%Qc →
  w (findCompletedItems app_id (keywords form) (global_id form)
       (category_id form) (sold_fetch form)) = Ok items →
  let sold := fold_left (completed_step (currency form)
                           (parse_terms (exclude_terms form))) items [] in
  estimate sold = Ok est →
  negb (PyNum.truthy est) || (PyNum.len sold <? min_sold form) = true →
  dashboard_try app_id form w tr
  = (Ok {| note := Some ("Not enough sold data (got "
                         +:+ pretty (PyNum.len sold) +:+ ").");
           sold_count := PyNum.len sold; avg_price := est;
           threshold := None; hits := [] |},
     tr ++ [findCompletedItems app_id (keywords form) (global_id form)
              (category_id form) (sold_fetch form)]).
Proof.
  intros H0 H100 Hw sold Hest Hcond. unfold dashboard_try.
  rewrite valid_discount by done. run_net.
  rewrite Hw. cbn [fmap res_fmap]. fold sold. by rewrite Hest, Hcond.
Qed.

(** ** The entry points *)

Lemma api_search_authorised app_id user_keys api_key data w :
  PyStr.truthy app_id = true → PyStr.truthy api_key = true →
  api_key ∈ user_keys →
  api_search (Some app_id) user_keys (Some api_key) data w
  = match api_try app_id data w [] with
    | (Ok results, tr) => (ApiOk results, tr)
    | (Raise e, tr) => (ApiError 400 (exn_str e), tr)
    end.
Proof.
  intros Happ Hkey Hin. unfold api_search.
  by rewrite Happ, Hkey, (bool_decide_eq_true_2 _ Hin).
Qed.

Lemma dashboard_configured app_id form w :
  PyStr.truthy app_id = true →
  dashboard (Some app_id) form w
  = match dashboard_try app_id form w [] with
    | (Ok results, tr) =>
        ({| page_results := Some results; page_flashes := [] |}, tr)
    | (Raise e, tr) =>
        ({| page_results := None; page_flashes := [exn_str e] |}, tr)
    end.
Proof. intros Happ. unfold dashboard. by rewrite Happ. Qed.

Lemma api_try_invariant app_id data w tr0 r tr :
  api_try app_id data w tr0 = (Ok r, tr) → result_invariant (min_sold data) r.
Proof.
  unfold api_try. run_net.
  destruct (w _) as [items|e]; cbn [fmap res_fmap]; [|done].
  destruct (estimate _) as [est|e]; [|done].
  destruct (negb _ || _) eqn:Hcond.
  - intros [= <- _]. split; cbn; [done | eauto].
  - apply orb_false_iff in Hcond as [_ Hlen]. apply Z.ltb_ge in Hlen.
    destruct est as [avg|]; [|done]. run_net.
    destruct (w _) as [active|e]; cbn [fmap res_fmap]; [|done].
    intros [= <- _]. split; cbn; [eauto | intros []; eauto].
Qed.

Lemma dashboard_try_invariant app_id form w tr0 r tr :
  dashboard_try app_id form w tr0 = (Ok r, tr) →
  result_invariant (min_sold form) r.
Proof.
  unfold dashboard_try. destruct (_ || _); [done|]. run_net.
  destruct (w _) as [items|e]; cbn [fmap res_fmap]; [|done].
  destruct (estimate _) as [est|e]; [|done].
  destruct (negb _ || _) eqn:Hcond.
  - intros [= <- _]. split; cbn; [done | eauto].
  - apply orb_false_iff in Hcond as [_ Hlen]. apply Z.ltb_ge in Hlen.
    destruct est as [avg|]; [|done]. run_net.
    destruct (w _) as [active|e]; cbn [fmap res_fmap]; [|done].
    intros [= <- _]. split; cbn; [eauto | intros []; eauto].
Qed.

Lemma dashboard_rejects_invalid_discount EBAY_APP_ID form w :
  (discount_percent form ≤ 0 ∨ Qc_of_Z 100 ≤ discount_percent form)%Qc →
  ∃ msg, dashboard EBAY_APP_ID form w
         = ({| page_results := None; page_flashes := [msg] |}, []).
Proof.
  intros Hd. unfold dashboard.
  destruct EBAY_APP_ID as [app_id|]; [|eauto].
  destruct (PyStr.truthy app_id); [|eauto].
  rewrite dashboard_try_invalid by done. eauto.
Qed.

(** ** Claims *)

(** C1. Every result returned by [dashboard] or by [api_search] has hits
    only when the number of sold prices reached [min_sold] and the average
    price is present; in every other case the threshold is absent, the hits
    are empty and the note is set. *)
Theorem result_invariant_of_search EBAY_APP_ID user_keys x_api_key form w r :
  page_results (dashboard EBAY_APP_ID form w).1 = Some r
  ∨ (api_search EBAY_APP_ID user_keys x_api_key form w).1 = ApiOk r →
  result_invariant (min_sold form) r.
Proof.
  intros [Hd | Ha].
  - unfold dashboard in Hd.
    destruct EBAY_APP_ID as [app_id|]; [|done].
    destruct (PyStr.truthy app_id); [|done].
    destruct (dashboard_try _ _ _ _) as [[r'|e] tr] eqn:Htry; [|done].
    cbn in Hd. injection Hd as ->. by eapply dashboard_try_invariant.
  - unfold api_search in Ha.
    destruct x_api_key as [api_key|]; [|done].
    destruct (negb (PyStr.truthy api_key)); [done|].
    destruct (negb (bool_decide _)); [done|].
    destruct EBAY_APP_ID as [app_id|]; [|done].
    destruct (negb (PyStr.truthy app_id)); [done|].
    destruct (api_try _ _ _ _) as [[r'|e] tr] eqn:Htry; [|done].
    cbn in Ha. injection Ha as ->. by eapply api_try_invariant.
Qed.

(** C2. When the estimate of the sold prices is absent or fewer than
    [min_sold] prices were found, both entry points return a normal result:
    the note is set, [sold_count] is the number of sold prices, [avg_price]
    is the estimate, the threshold is absent, the hits are empty, and the
    only request sent is the one for completed items. *)
Theorem insufficient_data_outcome app_id user_keys api_key form w items :
  PyStr.truthy app_id = true →
  PyStr.truthy api_key = true →
  api_key ∈ user_keys →
  w (findCompletedItems app_id (keywords form) (global_id form)
       (category_id form) (sold_fetch form)) = Ok items →
  let sold := fold_left (completed_step (currency form)
                           (parse_terms (exclude_terms form))) items [] in
  estimate sold = Ok None ∨ PyNum.len sold < min_sold form →
  ∃ est,
    estimate sold = Ok est
    ∧ api_search (Some app_id) user_keys (Some api_key) form w
      = (ApiOk {| note := Some ("Not enough sold data ("
                                +:+ pretty (PyNum.len sold) +:+ ").");
                  sold_count := PyNum.len sold; avg_price := est;
                  threshold := None; hits := [] |},
         [findCompletedItems app_id (keywords form) (global_id form)
            (category_id form) (sold_fetch form)])
    ∧ ((0 < discount_percent form)%Qc →
       (discount_percent form < Qc_of_Z 100)%Qc →
       dashboard (Some app_id) form w
       = ({| page_results :=
               Some {| note := Some ("Not enough sold data (got "
                                     +:+ pretty (PyNum.len sold) +:+ ").");
                       sold_count := PyNum.len sold; avg_price := est;
                       threshold := None; hits := [] |};
             page_flashes := [] |},
          [findCompletedItems app_id (keywords form) (global_id form)
             (category_id form) (sold_fetch form)])).
Proof.
  intros Happ Hkey Hin Hw sold Hcase.
  assert (∃ est, estimate sold = Ok est
                 ∧ negb (PyNum.truthy est)
                   || (PyNum.len sold <? min_sold form) = true)
    as (est & Hest & Hcond).
  { destruct (estimate_sold (currency form) (parse_terms (exclude_terms form))
                items) as [[_ Hest] | (_ & avg & Hest & _)]; fold sold in Hest.
    - by exists None.
    - exists (Some avg). split; [done|].
      destruct Hcase as [Hnone | Hlt]; [congruence|].
      apply orb_true_iff. right. by apply Z.ltb_lt. }
  exists est. split; [done|]. split.
  - rewrite api_search_authorised by done.
    by rewrite (api_try_insufficient _ _ _ _ items est).
  - intros H0 H100. rewrite dashboard_configured by done.
    by rewrite (dashboard_try_insufficient _ _ _ _ items est).
Qed.

Ltac qc_eq := apply Qc_is_canon; by vm_compute.

(** C3. For a sample of [n >= 6] prices, with [trim = max(1, floor(n*0.15))]
    and the core obtained by dropping [trim] elements from each end of the
    ascending-sorted sample, a core of at least 3 elements makes the estimate
    the arithmetic mean of the core; the estimate of
    [10,10,10,10,10,10,10,100] is 10. *)
Theorem trimmed_core_mean :
  (∀ prices,
     let n := PyNum.len prices in
     let trim := Z.max 1 (15 * n / 100) in
     let core := drop_both_ends (Z.to_nat trim) (PyNum.sorted prices) in
     6 ≤ n → (3 ≤ length core)%nat →
     trimmed_mean prices = Ok (Some (arithmetic_mean core))
     ∧ StronglySorted Qcle (PyNum.sorted prices)
     ∧ PyNum.sorted prices ≡ₚ prices)
  ∧ trimmed_mean (Qc_of_Z <$> [10; 10; 10; 10; 10; 10; 10; 100])
    = Ok (Some (Qc_of_Z 10)).
Proof.
  split.
  - intros prices n trim core Hn _.
    split; [|split; [apply sorted_ascending | apply sorted_perm]].
    destruct (trimmed_mean_long prices Hn) as [-> _].
    do 3 f_equal. unfold core, trim. f_equal.
    rewrite trim_of_eq. f_equal.
    change 15 with (5 * 3). change 100 with (5 * 20).
    rewrite <- Z.mul_assoc. by rewrite Z.div_mul_cancel_l.
  - vm_compute. do 2 f_equal. qc_eq.
Qed.

(** C5. For every sample of [n >= 6] prices,
    [n - 2*max(1, floor(n*0.15)) >= 3]: the core is the slice
    [prices_sorted[trim:n-trim]], it has [n - 2*trim] elements, and the
    estimate is the mean of that core, so neither the whole-sample branch of
    line 75 nor the median of line 76 is reached. *)
Theorem core_always_large prices :
  let n := PyNum.len prices in
  let trim := trim_of n in
  let core := PyNum.slice (PyNum.sorted prices) trim (n - trim) in
  6 ≤ n →
  3 ≤ n - 2 * Z.max 1 (15 * n / 100)
  ∧ 3 ≤ n - 2 * trim
  ∧ select_core (PyNum.sorted prices) n trim = core
  ∧ PyNum.len core = n - 2 * trim
  ∧ core_estimate core (PyNum.sorted prices)
    = Ok (PyNum.sum core / Qc_of_Z (PyNum.len core))%Qc
  ∧ trimmed_mean prices
    = Ok (Some (PyNum.sum core / Qc_of_Z (PyNum.len core))%Qc).
Proof.
  intros n trim core Hn.
  destruct (trim_of_bounds n Hn) as [H1 H3]. fold trim in H1, H3.
  assert (select_core (PyNum.sorted prices) n trim = core) as Hsel.
  { unfold select_core. rewrite Z.geb_leb.
    by destruct (Z.leb_spec 3 (n - 2 * trim)); [|lia]. }
  assert (core = drop_both_ends (Z.to_nat trim) (PyNum.sorted prices)) as Hdrop.
  { unfold core.
    replace (n - trim) with (PyNum.len (PyNum.sorted prices) - trim)
      by (by rewrite len_sorted).
    apply slice_drop_both_ends; rewrite ?len_sorted; fold n; lia. }
  assert (PyNum.len core = n - 2 * trim) as Hlen.
  { rewrite Hdrop. unfold PyNum.len.
    rewrite length_drop_both_ends, sorted_length.
    unfold n, PyNum.len in *. lia. }
  assert (core ≠ []) as Hne.
  { intros Hnil. rewrite Hnil in Hlen. unfold PyNum.len in Hlen.
    simpl in Hlen. lia. }
  repeat split; try done.
  - pose proof (Z.mul_div_le (15 * n) 100). lia.
  - rewrite core_estimate_mean by done. by rewrite mean_arithmetic.
  - destruct (trimmed_mean_long prices Hn) as [-> _].
    fold n trim. by rewrite <- Hdrop, mean_arithmetic.
Qed.

(** C6. The estimate of the empty sample is absent; the estimate of a
    non-empty sample of fewer than 6 prices is the median of the sorted
    sample, the average of the two middle values when the count is even. *)
Theorem short_sample_median :
  trimmed_mean [] = Ok None
  ∧ ∀ prices,
      prices ≠ [] → PyNum.len prices < 6 →
      trimmed_mean prices
      = Ok (Some (median_of_sorted (PyNum.sorted prices)))
      ∧ StronglySorted Qcle (PyNum.sorted prices)
      ∧ PyNum.sorted prices ≡ₚ prices.
Proof.
  split; [done|]. intros prices Hne Hlen.
  split; [by apply trimmed_mean_short|].
  split; [apply sorted_ascending | apply sorted_perm].
Qed.

(** C9. A listing is rejected for its title exactly when the lower-cased
    title contains, as a substring, the lower-cased form of one of the
    disallowed terms the user gave; [contains_disallowed] compares the terms
    of its list as they are, and [parse_terms] has lower-cased them. The
    title [PSA9 Charizard] is rejected by any list that contains [psa], and
    a rejected listing adds nothing to either pass. *)
Theorem title_exclusion_substring :
  (∀ title exclude_terms,
     contains_disallowed title (parse_terms exclude_terms) = true
     ↔ ∃ t, t ∈ PyStr.split "," exclude_terms
            ∧ PyStr.strip t ≠ EmptyString
            ∧ is_substring (PyStr.lower (PyStr.strip t)) (PyStr.lower title))
  ∧ (∀ title disallowed,
       contains_disallowed title disallowed = true
       ↔ ∃ term, term ∈ disallowed ∧ is_substring term (PyStr.lower title))
  ∧ (∀ exclude_terms term,
       term ∈ parse_terms exclude_terms → PyStr.lower term = term)
  ∧ (∀ disallowed,
       "psa" ∈ disallowed →
       contains_disallowed "PSA9 Charizard" disallowed = true)
  ∧ (∀ cur disallowed it,
       contains_disallowed (raw_title it) disallowed = true →
       (∀ prices, completed_step cur disallowed prices it = prices)
       ∧ (∀ results, active_step cur disallowed results it = results)).
Proof.
  split; [|split; [|split; [|split]]].
  - intros title exclude_terms. rewrite contains_disallowed_spec. split.
    + intros (term & Hin & Hsub).
      apply parse_terms_spec in Hin as (t & Ht & Hs & ->). eauto.
    + intros (t & Ht & Hs & Hsub). eexists. split; [|done].
      apply parse_terms_spec. eauto.
  - apply contains_disallowed_spec.
  - apply parse_terms_lowered.
  - intros disallowed Hin. apply contains_disallowed_spec.
    exists "psa". split; [done|]. by exists "", "9 charizard".
  - intros cur disallowed it Hrej. unfold completed_step, active_step.
    by rewrite Hrej.
Qed.

Lemma completed_step_mismatch cur dis prices it :
  raw_currencyId it ≠ Some cur → completed_step cur dis prices it = prices.
Proof.
  intros Hcur. unfold completed_step.
  rewrite (bool_decide_eq_false_2 _ Hcur). by repeat case_match.
Qed.

Lemma active_step_mismatch cur dis results it :
  raw_currencyId it ≠ Some cur → active_step cur dis results it = results.
Proof.
  intros Hcur. unfold active_step.
  rewrite (bool_decide_eq_false_2 _ Hcur). by repeat case_match.
Qed.

(** C10. A listing whose currency is not the requested one is excluded by
    both passes, whatever its title and price: the completed-sales pass and
    the active-listings pass give the same output with and without it. *)
Theorem currency_mismatch_excluded cur disallowed it pre post :
  raw_currencyId it ≠ Some cur →
  fold_left (completed_step cur disallowed) (pre ++ it :: post) []
  = fold_left (completed_step cur disallowed) (pre ++ post) []
  ∧ fold_left (active_step cur disallowed) (pre ++ it :: post) []
    = fold_left (active_step cur disallowed) (pre ++ post) [].
Proof.
  intros Hcur. rewrite !fold_left_app. cbn [fold_left].
  by rewrite completed_step_mismatch, active_step_mismatch.
Qed.

(** ** The two passes as order-preserving filters *)

Lemma nonpos_not_pos (p : Qc) :
  bool_decide (p ≤ 0)%Qc = negb (bool_decide (0 < p)%Qc).
Proof.
  destruct (decide (0 < p)%Qc) as [Hpos | Hnpos].
  - rewrite (bool_decide_eq_true_2 _ Hpos). apply bool_decide_eq_false.
    by apply Qclt_not_le.
  - rewrite (bool_decide_eq_false_2 _ Hnpos). apply bool_decide_eq_true.
    by apply Qcnot_lt_le.
Qed.

Lemma completed_step_keep cur dis prices it :
  completed_step cur dis prices it
  = prices ++ option_list (completed_keep cur dis it).
Proof.
  unfold completed_step, completed_keep.
  destruct (contains_disallowed _ _), (bool_decide (raw_sellingState it = _)),
    (bool_decide (raw_currencyId it = _)), (price_of it) as [p|];
    cbn; rewrite ?app_nil_r; try done.
  destruct (bool_decide (0 < p)%Qc); cbn; by rewrite ?app_nil_r.
Qed.

Lemma active_step_keep cur dis results it :
  active_step cur dis results it
  = results ++ option_list (active_keep cur dis it).
Proof.
  unfold active_step, active_keep.
  destruct (contains_disallowed _ _), (bool_decide (raw_currencyId it = _)),
    (price_of it) as [p|]; cbn; rewrite ?app_nil_r; try done.
  rewrite nonpos_not_pos.
  destruct (bool_decide (0 < p)%Qc); cbn; by rewrite ?app_nil_r.
Qed.

Lemma completed_fold cur dis items prices :
  fold_left (completed_step cur dis) items prices
  = prices ++ omap (completed_keep cur dis) items.
Proof.
  revert prices. induction items as [|it items IH]; intros prices; cbn.
  - by rewrite app_nil_r.
  - rewrite IH, completed_step_keep, <- app_assoc. f_equal.
    by destruct (completed_keep cur dis it).
Qed.

Lemma active_fold cur dis items results :
  fold_left (active_step cur dis) items results
  = results ++ omap (active_keep cur dis) items.
Proof.
  revert results. induction items as [|it items IH]; intros results; cbn.
  - by rewrite app_nil_r.
  - rewrite IH, active_step_keep, <- app_assoc. f_equal.
    by destruct (active_keep cur dis it).
Qed.

Lemma completed_keep_Some cur dis it p :
  completed_keep cur dis it = Some p
  ↔ contains_disallowed (raw_title it) dis = false
    ∧ raw_sellingState it = "EndedWithSales"
    ∧ raw_currencyId it = Some cur
    ∧ price_of it = Some p ∧ (0 < p)%Qc.
Proof.
  unfold completed_keep. destruct (price_of it) as [price|].
  - destruct (_ && _) eqn:Hacc.
    + rewrite !andb_true_iff, negb_true_iff, !bool_decide_eq_true in Hacc.
      split; [intros [= <-]; tauto | intros (_ & _ & _ & [= ->] & _); done].
    + split; [done|]. intros (Ht & Hs & Hc & [= ->] & Hp).
      rewrite Ht, (bool_decide_eq_true_2 _ Hs), (bool_decide_eq_true_2 _ Hc),
        (bool_decide_eq_true_2 _ Hp) in Hacc. done.
  - split; [done | intros (_ & _ & _ & [=] & _)].
Qed.

Lemma omap_skip {A B} (f : A → option B) (pre post : list A) (x : A) :
  f x = None → omap f (pre ++ x :: post) = omap f (pre ++ post).
Proof. intros Hx. rewrite !omap_app. cbn. by rewrite Hx. Qed.

Lemma omap_length_le {A B} (f : A → option B) (l : list A) :
  (length (omap f l) ≤ length l)%nat.
Proof.
  induction l as [|x l IH]; cbn; [done|]. destruct (f x); cbn; lia.
Qed.

(** X1. What [get_completed_prices] returns when the request answers: one
    request is logged, and a price is in the result exactly when some
    listing of the response has an allowed title, ended with a sale, is in
    the requested currency and carries that price, which is positive;
    there are at most as many prices as listings. *)
Theorem completed_prices_characterised app_id kw gid cat cur n dis w tr
    prices tr' :
  get_completed_prices app_id kw gid cat cur n dis w tr = (Ok prices, tr') →
  ∃ items,
    w (findCompletedItems app_id kw gid cat n) = Ok items
    ∧ tr' = tr ++ [findCompletedItems app_id kw gid cat n]
    ∧ (length prices ≤ length items)%nat
    ∧ ∀ p, p ∈ prices
           ↔ ∃ it, it ∈ items
                   ∧ contains_disallowed (raw_title it) dis = false
                   ∧ raw_sellingState it = "EndedWithSales"
                   ∧ raw_currencyId it = Some cur
                   ∧ price_of it = Some p ∧ (0 < p)%Qc.
Proof.
  rewrite get_completed_prices_run.
  destruct (w _) as [items|e]; cbn [fmap res_fmap]; [|done].
  intros [= <- <-]. exists items. rewrite completed_fold, app_nil_l.
  repeat split; [apply omap_length_le|..].
  - intros (it & Hin & Hkeep)%list_elem_of_omap. exists it.
    by apply completed_keep_Some in Hkeep.
  - intros (it & Hin & Hrest). apply list_elem_of_omap. exists it.
    split; [done|]. by apply completed_keep_Some.
Qed.

(** X3. Both passes work listing by listing: the output for a response
    that is the concatenation of two lists is the concatenation of the
    outputs, so nothing is deduplicated and no listing affects another. *)
Theorem passes_distribute_over_append cur dis items1 items2 :
  fold_left (completed_step cur dis) (items1 ++ items2) []
  = fold_left (completed_step cur dis) items1 []
    ++ fold_left (completed_step cur dis) items2 []
  ∧ fold_left (active_step cur dis) (items1 ++ items2) []
    = fold_left (active_step cur dis) items1 []
      ++ fold_left (active_step cur dis) items2 [].
Proof.
  rewrite !completed_fold, !active_fold, !app_nil_l.
  by rewrite !omap_app.
Qed.

Lemma bad_price_not_kept cur dis it :
  price_of it = None ∨ (∃ p, price_of it = Some p ∧ (p ≤ 0)%Qc) →
  completed_keep cur dis it = None ∧ active_keep cur dis it = None.
Proof.
  intros Hbad. unfold completed_keep, active_keep.
  destruct Hbad as [-> | (p & -> & Hp)]; [done|].
  rewrite (bool_decide_eq_false_2 (0 < p)%Qc) by (by apply Qcle_not_lt).
  by rewrite !andb_false_r.
Qed.

(** X4. A listing whose price text does not parse, or parses to zero or
    less, is skipped by both passes and the rest of the batch is processed
    as if it were not there; a listing that did not end with a sale is
    skipped by the completed-sales pass. *)
Theorem bad_record_skipped cur dis it pre post :
  (price_of it = None ∨ (∃ p, price_of it = Some p ∧ (p ≤ 0)%Qc)
   → fold_left (completed_step cur dis) (pre ++ it :: post) []
     = fold_left (completed_step cur dis) (pre ++ post) []
     ∧ fold_left (active_step cur dis) (pre ++ it :: post) []
       = fold_left (active_step cur dis) (pre ++ post) [])
  ∧ (raw_sellingState it ≠ "EndedWithSales"
     → fold_left (completed_step cur dis) (pre ++ it :: post) []
       = fold_left (completed_step cur dis) (pre ++ post) []).
Proof.
  rewrite !completed_fold, !active_fold, !app_nil_l.
  split.
  - intros Hbad. destruct (bad_price_not_kept cur dis it Hbad) as [Hc Ha].
    by rewrite !omap_skip.
  - intros Hstate. apply omap_skip.
    unfold completed_keep. destruct (price_of it); [|done].
    rewrite (bool_decide_eq_false_2 _ Hstate).
    by rewrite andb_false_r.
Qed.

(** X5. A listing without a price value is read as [float("0")]: when
    that is 0 the listing is skipped by both passes. *)
Theorem missing_value_skipped cur dis it pre post :
  py_float "0" = Some 0%Qc → raw_value it = None →
  fold_left (completed_step cur dis) (pre ++ it :: post) []
  = fold_left (completed_step cur dis) (pre ++ post) []
  ∧ fold_left (active_step cur dis) (pre ++ it :: post) []
    = fold_left (active_step cur dis) (pre ++ post) [].
Proof.
  intros Hzero Hmissing.
  destruct (bad_price_not_kept cur dis it) as [Hc Ha].
  { right. exists 0%Qc. split; [|done].
    unfold price_of. by rewrite Hmissing. }
  rewrite !completed_fold, !active_fold, !app_nil_l.
  by rewrite !omap_skip.
Qed.

(** ** More on the estimator *)

Lemma sorted_of_perm l1 l2 : l1 ≡ₚ l2 → PyNum.sorted l1 = PyNum.sorted l2.
Proof.
  intros Hperm. apply (StronglySorted_unique Qcle); auto using sorted_ascending.
  by rewrite !sorted_perm.
Qed.

(** X6. The estimate depends on the prices as a bag only: two samples that
    are permutations of each other have the same estimate. *)
Theorem trimmed_mean_permutation prices1 prices2 :
  prices1 ≡ₚ prices2 → trimmed_mean prices1 = trimmed_mean prices2.
Proof.
  intros Hperm. unfold trimmed_mean.
  destruct prices1 as [|p1 ps1], prices2 as [|p2 ps2]; try done.
  - by apply Permutation_nil_cons in Hperm.
  - symmetry in Hperm. by apply Permutation_nil_cons in Hperm.
  - by rewrite (sorted_of_perm _ _ Hperm).
Qed.

Lemma sorted_largest x l :
  Forall (λ z, z ≤ x)%Qc l → PyNum.sorted (x :: l) = PyNum.sorted l ++ [x].
Proof.
  intros Hx. apply (StronglySorted_unique Qcle).
  - apply sorted_ascending.
  - apply StronglySorted_app_2;
      [|apply sorted_ascending | repeat constructor].
    intros x1 x2 Hx1 ->%list_elem_of_singleton.
    rewrite sorted_perm in Hx1. rewrite Forall_forall in Hx. by apply Hx.
  - by rewrite !sorted_perm, Permutation_cons_append.
Qed.

Lemma sorted_smallest x l :
  Forall (λ z, x ≤ z)%Qc l → PyNum.sorted (x :: l) = x :: PyNum.sorted l.
Proof.
  intros Hx. apply (StronglySorted_unique Qcle).
  - apply sorted_ascending.
  - apply SSorted_cons; [apply sorted_ascending | by apply sorted_Forall].
  - by rewrite !sorted_perm.
Qed.

Lemma drop_both_ends_last {A} (k : nat) (l : list A) (x y : A) :
  (1 ≤ k ≤ length l)%nat →
  drop_both_ends k (l ++ [x]) = drop_both_ends k (l ++ [y]).
Proof.
  intros Hk. rewrite !drop_both_ends_take_drop, !length_app. cbn [length].
  rewrite !drop_app_le by lia.
  rewrite !take_app_le by (rewrite length_drop; lia). done.
Qed.

Lemma drop_both_ends_first {A} (k : nat) (l : list A) (x y : A) :
  (1 ≤ k)%nat → drop_both_ends k (x :: l) = drop_both_ends k (y :: l).
Proof.
  intros Hk. rewrite !drop_both_ends_take_drop. cbn [length].
  destruct k as [|k]; [lia|]. done.
Qed.

(** X8. With 6 prices or more the extremes do not count: changing the
    largest price to any value that is still the largest, or the smallest
    to any value that is still the smallest, leaves the estimate as it
    is. *)
Theorem extreme_price_irrelevant prices x y :
  (5 ≤ length prices)%nat →
  (Forall (λ z, z ≤ x)%Qc prices ∧ Forall (λ z, z ≤ y)%Qc prices)
  ∨ (Forall (λ z, x ≤ z)%Qc prices ∧ Forall (λ z, y ≤ z)%Qc prices) →
  trimmed_mean (x :: prices) = trimmed_mean (y :: prices).
Proof.
  intros Hlen Hext.
  assert (6 ≤ PyNum.len (x :: prices)) as Hx
    by (unfold PyNum.len; cbn [length]; lia).
  assert (6 ≤ PyNum.len (y :: prices)) as Hy
    by (unfold PyNum.len; cbn [length]; lia).
  destruct (trimmed_mean_long _ Hx) as [-> _].
  destruct (trimmed_mean_long _ Hy) as [-> _].
  assert (PyNum.len (y :: prices) = PyNum.len (x :: prices)) as -> by done.
  destruct (trim_of_bounds _ Hx) as [Htrim Hcore].
  do 3 f_equal.
  destruct Hext as [[Hmx Hmy] | [Hmx Hmy]].
  - rewrite (sorted_largest x), (sorted_largest y) by done.
    apply drop_both_ends_last. rewrite sorted_length.
    unfold PyNum.len in *. cbn [length] in *. lia.
  - rewrite (sorted_smallest x), (sorted_smallest y) by done.
    apply drop_both_ends_first. lia.
Qed.

(** ** More on the entry points *)

(** X10. The key check of [api_search] comes first (lines 275 to 281):
    whatever the body of the request, it answers 401 without a key or with
    an empty one and 403 for a key that no user has, and sends no request
    in either case. A request is sent only for a non-empty key of a user
    and a configured application id. *)
Theorem api_search_gate EBAY_APP_ID user_keys x_api_key data w :
  (x_api_key = None ∨ x_api_key = Some EmptyString →
   api_search EBAY_APP_ID user_keys x_api_key data w
   = (ApiError 401 "Missing X-API-Key", []))
  ∧ (∀ key, x_api_key = Some key → key ≠ EmptyString → key ∉ user_keys →
     api_search EBAY_APP_ID user_keys x_api_key data w
     = (ApiError 403 "Invalid API key", []))
  ∧ ((api_search EBAY_APP_ID user_keys x_api_key data w).2 ≠ [] →
     ∃ key app_id,
       x_api_key = Some key ∧ key ≠ EmptyString ∧ key ∈ user_keys
       ∧ EBAY_APP_ID = Some app_id ∧ app_id ≠ EmptyString).
Proof.
  unfold api_search, PyStr.truthy. repeat split.
  - by intros [-> | ->].
  - intros key -> Hne Hnotin.
    by rewrite (bool_decide_eq_false_2 _ Hne), (bool_decide_eq_false_2 _ Hnotin).
  - destruct x_api_key as [key|]; [|done].
    destruct (decide (key = EmptyString)) as [-> | Hkey]; [done|].
    rewrite (bool_decide_eq_false_2 _ Hkey). cbn [negb].
    destruct (decide (key ∈ user_keys)) as [Hin | Hnotin];
      [|by rewrite (bool_decide_eq_false_2 _ Hnotin)].
    rewrite (bool_decide_eq_true_2 _ Hin). cbn [negb].
    destruct EBAY_APP_ID as [app_id|]; [|done].
    destruct (decide (app_id = EmptyString)) as [-> | Happ]; [done|].
    intros _. by exists key, app_id.
Qed.

(** X11. A failure of either request is not retried and leaves no partial
    result: when the completed-items request raises, [api_search] answers
    400 with the message and [dashboard] flashes it, after that one
    request; when the active-items request raises, the same happens after
    the two requests. *)
Theorem fetch_failure_propagates app_id user_keys api_key form w e :
  PyStr.truthy app_id = true →
  PyStr.truthy api_key = true →
  api_key ∈ user_keys →
  (0 < discount_percent form)%Qc →
  (discount_percent form < Qc_of_Z 100)%Qc →
  let completed := findCompletedItems app_id (keywords form) (global_id form)
                     (category_id form) (sold_fetch form) in
  (w completed = Raise e →
   api_search (Some app_id) user_keys (Some api_key) form w
   = (ApiError 400 (exn_str e), [completed])
   ∧ dashboard (Some app_id) form w
     = ({| page_results := None; page_flashes := [exn_str e] |}, [completed]))
  ∧ (∀ items avg,
       w completed = Ok items →
       let sold := fold_left (completed_step (currency form)
                                (parse_terms (exclude_terms form))) items [] in
       let active := findItemsAdvanced app_id (keywords form) (global_id form)
                       (category_id form)
                       (threshold_of avg (discount_percent form))
                       (currency form) (active_fetch form) in
       estimate sold = Ok (Some avg) →
       min_sold form ≤ PyNum.len sold →
       w active = Raise e →
       api_search (Some app_id) user_keys (Some api_key) form w
       = (ApiError 400 (exn_str e), [completed; active])
       ∧ dashboard (Some app_id) form w
         = ({| page_results := None; page_flashes := [exn_str e] |},
            [completed; active])).
Proof.
  intros Happ Hkey Hin H0 H100 completed.
  rewrite api_search_authorised, dashboard_configured by done.
  unfold api_try, dashboard_try. rewrite valid_discount by done.
  run_net. fold completed. split.
  - intros ->. by cbn.
  - intros items avg -> Hest Hmin Hact.
    set (sold := fold_left _ items []) in *.
    set (active := findItemsAdvanced _ _ _ _ _ _ _) in *.
    cbn [fmap res_fmap]. fold sold. rewrite Hest.
    assert (0 < avg)%Qc as Hpos.
    { destruct (estimate_sold (currency form)
                  (parse_terms (exclude_terms form)) items)
        as [[_ Hnone] | (_ & avg' & Hsome & Hpos)]; cbv zeta in *.
      - unfold sold in Hest. congruence.
      - unfold sold in Hest. rewrite Hest in Hsome. by injection Hsome as ->. }
    rewrite Qc_pos_truthy by done.
    destruct (Z.ltb_spec (PyNum.len sold) (min_sold form)) as [|_]; [lia|].
    cbn [negb orb]. run_net. fold active. rewrite Hact. by cbn.
Qed.

(** X12. The requests that were sent can be read off a result: a result
    without threshold comes from the completed-items request alone, and a
    result with a threshold comes from that request followed by the
    active-items request whose maximum price is exactly the reported
    threshold; never more than these two. *)
Theorem requests_match_result EBAY_APP_ID user_keys x_api_key form w r tr :
  (dashboard EBAY_APP_ID form w
   = ({| page_results := Some r; page_flashes := [] |}, tr)
   ∨ api_search EBAY_APP_ID user_keys x_api_key form w = (ApiOk r, tr)) →
  ∃ app_id,
    EBAY_APP_ID = Some app_id
    ∧ let completed := findCompletedItems app_id (keywords form)
                         (global_id form) (category_id form)
                         (sold_fetch form) in
      match threshold r with
      | None => tr = [completed]
      | Some max_price =>
          tr = [completed;
                findItemsAdvanced app_id (keywords form) (global_id form)
                  (category_id form) max_price (currency form)
                  (active_fetch form)]
      end.
Proof.
  assert (∀ app_id,
            (dashboard_try app_id form w [] = (Ok r, tr)
             ∨ api_try app_id form w [] = (Ok r, tr)) →
            match threshold r with
            | None =>
                tr = [findCompletedItems app_id (keywords form)
                        (global_id form) (category_id form) (sold_fetch form)]
            | Some max_price =>
                tr = [findCompletedItems app_id (keywords form)
                        (global_id form) (category_id form) (sold_fetch form);
                      findItemsAdvanced app_id (keywords form) (global_id form)
                        (category_id form) max_price (currency form)
                        (active_fetch form)]
            end) as Htry.
  { intros app_id. unfold dashboard_try, api_try.
    destruct (_ || _); run_net.
    all: destruct (w (findCompletedItems _ _ _ _ _)) as [items|e];
      cbn [fmap res_fmap].
    all: try destruct (estimate _) as [est|e'].
    all: try destruct (negb _ || _).
    all: try destruct est as [avg|].
    all: run_net.
    all: try destruct (w (findItemsAdvanced _ _ _ _ _ _ _)) as [active|e''];
      cbn [fmap res_fmap].
    all: intros [[=] | [=]]; subst; done. }
  intros [Hd | Ha].
  - unfold dashboard in Hd.
    destruct EBAY_APP_ID as [app_id|]; [|done].
    destruct (PyStr.truthy app_id); [|done].
    destruct (dashboard_try _ _ _ _) as [[r'|e] tr'] eqn:Hrun; [|done].
    injection Hd as -> ->. exists app_id. split; [done|]. apply Htry. by left.
  - unfold api_search in Ha.
    destruct x_api_key as [api_key|]; [|done].
    destruct (negb (PyStr.truthy api_key)); [done|].
    destruct (negb (bool_decide _)); [done|].
    destruct EBAY_APP_ID as [app_id|]; [|done].
    destruct (negb (PyStr.truthy app_id)); [done|].
    destruct (api_try _ _ _ _) as [[r'|e] tr'] eqn:Hrun; [|done].
    injection Ha as -> ->. exists app_id. split; [done|]. apply Htry. by right.
Qed.

(** X13. For a discount between 0 and 100 the two entry points are the
    same search: they send the same requests, and either both fail with
    the same message (flashed by [dashboard], answered with status 400 by
    [api_search]) or both return a result with the same count, average,
    threshold and hits, with a note in both or in neither. *)
Theorem entry_points_agree app_id user_keys api_key form w :
  PyStr.truthy app_id = true →
  PyStr.truthy api_key = true →
  api_key ∈ user_keys →
  (0 < discount_percent form)%Qc →
  (discount_percent form < Qc_of_Z 100)%Qc →
  match api_search (Some app_id) user_keys (Some api_key) form w with
  | (ApiOk r, tr) =>
      ∃ r', dashboard (Some app_id) form w
            = ({| page_results := Some r'; page_flashes := [] |}, tr)
            ∧ sold_count r' = sold_count r ∧ avg_price r' = avg_price r
            ∧ threshold r' = threshold r ∧ hits r' = hits r
            ∧ (is_Some (note r') ↔ is_Some (note r))
  | (ApiError status msg, tr) =>
      status = 400
      ∧ dashboard (Some app_id) form w
        = ({| page_results := None; page_flashes := [msg] |}, tr)
  end.
Proof.
  intros Happ Hkey Hin H0 H100.
  rewrite api_search_authorised, dashboard_configured by done.
  unfold api_try, dashboard_try. rewrite valid_discount by done. run_net.
  destruct (w (findCompletedItems _ _ _ _ _)) as [items|e];
    cbn [fmap res_fmap]; [|done].
  destruct (estimate _) as [est|e]; [|done].
  destruct (negb _ || _).
  - eexists. split; [done|]. cbn. repeat split; eauto.
  - destruct est as [avg|]; [|done]. run_net.
    destruct (w (findItemsAdvanced _ _ _ _ _ _ _)) as [active|e];
      cbn [fmap res_fmap]; [|done].
    eexists. split; [done|]. cbn. repeat split; by intros [].
Qed.

(** ** Accounts, sessions and the login gate *)

Lemma current_user_None session users :
  current_user session users = None
  ↔ session !! "uid" = None
    ∨ session !! "uid" = Some 0
    ∨ ∃ uid, session !! "uid" = Some uid ∧ uid ∉ user_id <$> users.
Proof.
  unfold current_user. destruct (session !! "uid") as [uid|]; [|by intuition].
  destruct (decide (uid = 0)) as [-> | Hnz].
  - rewrite bool_decide_eq_true_2 by done. by intuition.
  - rewrite bool_decide_eq_false_2 by done. split.
    + intros Hfind. right. right. exists uid. split; [done|].
      intros (u & -> & Hin)%list_elem_of_fmap.
      apply list_elem_of_In in Hin.
      apply (find_none _ _ Hfind) in Hin.
      by rewrite bool_decide_eq_true_2 in Hin.
    + intros [[=] | [[=] | (uid' & [= <-] & Hnotin)]]; [done|].
      destruct (List.find _ users) as [u|] eqn:Hfind; [|done].
      apply find_some in Hfind as [Hin Hid].
      apply bool_decide_eq_true in Hid. exfalso. apply Hnotin.
      apply list_elem_of_fmap. exists u. split; [done|].
      by apply list_elem_of_In.
Qed.

(** X14. The dashboard is behind the login: a visitor without [uid] in the
    session, with the [uid] 0, or with a [uid] that no user has, is
    redirected to the index on GET and on POST and no request is sent; the
    same holds for every visitor after [logout]. *)
Theorem dashboard_requires_login EBAY_APP_ID session users method form w :
  (session !! "uid" = None
   ∨ session !! "uid" = Some 0
   ∨ (∃ uid, session !! "uid" = Some uid ∧ uid ∉ user_id <$> users) →
   dashboard_route EBAY_APP_ID session users method form w
   = (RedirectIndex, []))
  ∧ dashboard_route EBAY_APP_ID (logout session) users method form w
    = (RedirectIndex, []).
Proof.
  unfold dashboard_route, login_required. split.
  - intros Hanon. by rewrite (proj2 (current_user_None session users) Hanon).
  - by rewrite (proj2 (current_user_None (logout session) users) (or_introl eq_refl)).
Qed.

(** X15. A logged-in visitor gets the search form on GET: no results, no
    message and no request, whatever the configuration; requests are sent
    on POST only. *)
Theorem dashboard_get_is_idle EBAY_APP_ID session users method form w :
  (dashboard_route EBAY_APP_ID session users GET form w).2 = []
  ∧ (is_Some (current_user session users) →
     dashboard_route EBAY_APP_ID session users GET form w
     = (RenderDashboard {| page_results := None; page_flashes := [] |}, []))
  ∧ ((dashboard_route EBAY_APP_ID session users method form w).2 ≠ [] →
     method = POST ∧ is_Some (current_user session users)).
Proof.
  unfold dashboard_route, login_required.
  destruct (current_user session users) as [u|].
  - split; [done|]. split; [done|]. intros Hsent. split; [|by eauto].
    by destruct method.
  - split; [done|]. split; [by intros [? [=]]|]. by intros Hsent.
Qed.



Lemma head_filter_find {A} (f : A → bool) (l : list A) :
  head (List.filter f l) = List.find f l.
Proof.
  induction l as [|x l IH]; [done|]. cbn [List.filter List.find].
  by destruct (f x).
Qed.

(** The SELECT of line 204 followed by [fetchone]. *)
Lemma select_fetchone customer_id c :
  Sqlite.execute (Sqlite.SelectByCustomer customer_id) c
  = (inr {| Sqlite.rows :=
              List.filter (λ u, bool_decide
                                  (user_stripe_customer_id u = customer_id))
                (Sqlite.pending c);
            Sqlite.lastrowid := None |}, c).
Proof. done. Qed.

(** A customer with a row: the block ends normally and commits a
    transaction without changes. *)
Lemma upsert_user_found token now email customer_id users row :
  List.find (λ u, bool_decide (user_stripe_customer_id u = customer_id)) users
  = Some row →
  Sqlite.with_db users (upsert_user token now email customer_id)
  = (inr (user_id row), users).
Proof.
  intros Hfind. unfold Sqlite.with_db, upsert_user, Sqlite.bind.
  rewrite select_fetchone. unfold Sqlite.fetchone. cbn [Sqlite.rows].
  change (Sqlite.pending (Sqlite.connect users)) with users.
  by rewrite head_filter_find, Hfind.
Qed.

(** A customer without a row: the block raises, either in the INSERT or,
    after the INSERT, in [c.lastrowid], and the table is as before. *)
Lemma upsert_user_new token now email customer_id users :
  List.find (λ u, bool_decide (user_stripe_customer_id u = customer_id)) users
  = None →
  Sqlite.with_db users (upsert_user token now email customer_id)
  = (inl (if bool_decide (email ∈ user_email <$> users)
          then "UNIQUE constraint failed: users.email"
          else "'sqlite3.Connection' object has no attribute 'lastrowid'"),
     users).
Proof.
  intros Hfind. unfold Sqlite.with_db, upsert_user, Sqlite.bind.
  rewrite select_fetchone. unfold Sqlite.fetchone. cbn [Sqlite.rows].
  change (Sqlite.pending (Sqlite.connect users)) with users.
  rewrite head_filter_find, Hfind.
  unfold Sqlite.execute, Sqlite.connect. cbn [Sqlite.pending].
  by destruct (bool_decide (email ∈ user_email <$> users)).
Qed.




(** X17. From the empty [users] table no account can come into being:
    after any visit to [welcome] the table is still empty, so [api_search]
    answers 401 or 403 to every key, and the dashboard still redirects a
    visitor who had no [uid]; no request is ever sent. *)
Theorem empty_table_stays_closed stripe token_urlsafe utcnow_isoformat
    session_id session EBAY_APP_ID x_api_key method form w :
  session !! "uid" = None →
  let '(_, session', users') :=
    welcome stripe token_urlsafe utcnow_isoformat session_id session [] in
  users' = []
  ∧ (∃ status msg,
       api_search_route EBAY_APP_ID users' x_api_key form w
       = (ApiError status msg, [])
       ∧ (status = 401 ∨ status = 403))
  ∧ dashboard_route EBAY_APP_ID session' users' method form w
    = (RedirectIndex, []).
Proof.
  intros Hanon.
  assert (∃ status msg,
            api_search_route EBAY_APP_ID [] x_api_key form w
            = (ApiError status msg, [])
            ∧ (status = 401 ∨ status = 403)) as Hapi.
  { unfold api_search_route, api_search.
    destruct x_api_key as [key|]; [|by eauto].
    destruct (negb (PyStr.truthy key)); [by eauto|]. cbn. by eauto. }
  assert (dashboard_route EBAY_APP_ID session [] method form w
          = (RedirectIndex, [])) as Hdash.
  { unfold dashboard_route, login_required.
    by rewrite (proj2 (current_user_None session []) (or_introl Hanon)). }
  unfold welcome.
  destruct session_id as [sid|]; [|done].
  destruct (negb (PyStr.truthy sid)); [done|].
  destruct (stripe sid) as [e|customer]; [done|].
  by rewrite upsert_user_new by done.
Qed.

(** X18. A returning customer is logged in: when the first row with the
    customer's id is [row], [welcome] renders the page and stores the id of
    the row in the session, and when that id is not 0 and belongs to no
    other row [current_user] is then [row] and a GET of the dashboard
    shows the form. *)
Theorem welcome_logs_in stripe token_urlsafe utcnow_isoformat sid customer
    session users row EBAY_APP_ID form w :
  sid ≠ EmptyString →
  stripe sid = inr customer →
  List.find (λ u, bool_decide
               (user_stripe_customer_id u = customer_id customer)) users
  = Some row →
  user_id row ≠ 0 →
  (∀ u, u ∈ users → user_id u = user_id row → u = row) →
  welcome stripe token_urlsafe utcnow_isoformat (Some sid) session users
  = (RenderWelcome, <["uid" := user_id row]> session, users)
  ∧ current_user (<["uid" := user_id row]> session) users = Some row
  ∧ dashboard_route EBAY_APP_ID (<["uid" := user_id row]> session) users
      GET form w
    = (RenderDashboard {| page_results := None; page_flashes := [] |}, []).
Proof.
  intros Hsid Hstripe Hfind Hnz Huniq.
  assert (current_user (<["uid" := user_id row]> session) users = Some row)
    as Hcur.
  { unfold current_user. rewrite lookup_insert_eq.
    rewrite (bool_decide_eq_false_2 _ Hnz).
    destruct (List.find (λ u, bool_decide (user_id u = user_id row)) users)
      as [u|] eqn:Hbyid.
    - apply find_some in Hbyid as [Hin Hid].
      apply bool_decide_eq_true in Hid. f_equal.
      apply Huniq; [by apply list_elem_of_In | done].
    - apply find_some in Hfind as [Hin _].
      apply (find_none _ _ Hbyid) in Hin.
      by rewrite bool_decide_eq_true_2 in Hin. }
  repeat split; [|done|].
  - unfold welcome, PyStr.truthy.
    rewrite (bool_decide_eq_false_2 _ Hsid), Hstripe. cbn [negb].
    by rewrite (upsert_user_found _ _ _ _ _ row).
  - unfold dashboard_route, login_required. by rewrite Hcur.
Qed.

(** ** More on the disallowed terms *)

Lemma is_space_lower c : PyStr.is_space (PyStr.lower_ascii c) = PyStr.is_space c.
Proof. destruct c as [[] [] [] [] [] [] [] []]; reflexivity. Qed.

Lemma lower_empty s : PyStr.lower s = EmptyString → s = EmptyString.
Proof. by destruct s. Qed.

Lemma lstrip_lower s : PyStr.lstrip (PyStr.lower s) = PyStr.lower (PyStr.lstrip s).
Proof.
  induction s as [|c s IH]; cbn; [done|].
  rewrite is_space_lower. by destruct (PyStr.is_space c).
Qed.

Lemma rstrip_lower s : PyStr.rstrip (PyStr.lower s) = PyStr.lower (PyStr.rstrip s).
Proof.
  induction s as [|c s IH]; cbn; [done|].
  rewrite IH, is_space_lower.
  destruct (PyStr.rstrip s); cbn; [|done].
  by destruct (PyStr.is_space c).
Qed.

Lemma strip_lower s : PyStr.strip (PyStr.lower s) = PyStr.lower (PyStr.strip s).
Proof. unfold PyStr.strip. by rewrite lstrip_lower, rstrip_lower. Qed.

Lemma rstrip_cons c s :
  PyStr.rstrip (String c s)
  = match PyStr.rstrip s with
    | EmptyString =>
        if PyStr.is_space c then EmptyString else String c EmptyString
    | r => String c r
    end.
Proof. reflexivity. Qed.

Lemma rstrip_idemp s : PyStr.rstrip (PyStr.rstrip s) = PyStr.rstrip s.
Proof.
  induction s as [|c s IH]; [done|]. rewrite (rstrip_cons c s).
  destruct (PyStr.rstrip s) as [|c' r] eqn:Hr.
  - destruct (PyStr.is_space c) eqn:Hc; [done|].
    rewrite rstrip_cons. cbn. by rewrite Hc.
  - rewrite rstrip_cons. by rewrite IH.
Qed.

Lemma lstrip_starts_clean s : starts_clean (PyStr.lstrip s).
Proof.
  induction s as [|c s IH]; cbn; [done|].
  by destruct (PyStr.is_space c) eqn:Hc.
Qed.

Lemma rstrip_starts_clean s : starts_clean s → starts_clean (PyStr.rstrip s).
Proof.
  destruct s as [|c s]; cbn; [done|]. intros Hc.
  destruct (PyStr.rstrip s); cbn; [by rewrite Hc | done].
Qed.

Lemma lstrip_clean s : starts_clean s → PyStr.lstrip s = s.
Proof. destruct s as [|c s]; cbn; [done|]. by intros ->. Qed.

Lemma strip_idemp s : PyStr.strip (PyStr.strip s) = PyStr.strip s.
Proof.
  unfold PyStr.strip.
  rewrite (lstrip_clean (PyStr.rstrip (PyStr.lstrip s)))
    by apply rstrip_starts_clean, lstrip_starts_clean.
  apply rstrip_idemp.
Qed.

Lemma contains_in_empty term :
  PyStr.contains term EmptyString = true ↔ term = EmptyString.
Proof. by destruct term. Qed.

(** X19. Every term that [parse_terms] returns is non-empty, lower-cased
    and free of surrounding white space, whatever the user typed; as no
    term is empty, the title check does not reject everything: a listing
    with an empty title always passes it. *)
Theorem parse_terms_normalised exclude_terms :
  (∀ term, term ∈ parse_terms exclude_terms →
           term ≠ EmptyString
           ∧ PyStr.lower term = term
           ∧ PyStr.strip term = term)
  ∧ contains_disallowed EmptyString (parse_terms exclude_terms) = false.
Proof.
  assert (∀ term, term ∈ parse_terms exclude_terms →
                  term ≠ EmptyString
                  ∧ PyStr.lower term = term
                  ∧ PyStr.strip term = term) as Hterms.
  { intros term (t & _ & Hne & ->)%parse_terms_spec. repeat split.
    - by intros ?%lower_empty.
    - apply lower_idemp.
    - by rewrite strip_lower, strip_idemp. }
  split; [done|].
  apply not_true_is_false. intros Hrej.
  apply contains_disallowed_spec in Hrej as (term & Hin & Hsub).
  apply contains_spec, contains_in_empty in Hsub.
  by destruct (Hterms term Hin) as [Hne _].
Qed.

Lemma comma_free_cons c t :
  comma_free (String c t) → c ≠ ","%char ∧ comma_free t.
Proof.
  intros Hfree. split.
  - intros ->. apply Hfree. by exists EmptyString, t.
  - intros (pre & post & ->). apply Hfree. by exists (String c pre), post.
Qed.

Lemma split_cons sep c s :
  PyStr.split sep (String c s)
  = if bool_decide (c = sep) then EmptyString :: PyStr.split sep s
    else match PyStr.split sep s with
         | h :: t => String c h :: t
         | [] => [String c EmptyString]
         end.
Proof. reflexivity. Qed.

Lemma split_comma_free t : comma_free t → PyStr.split "," t = [t].
Proof.
  induction t as [|c t IH]; [done|].
  intros [Hc Ht]%comma_free_cons.
  by rewrite split_cons, (bool_decide_eq_false_2 _ Hc), IH.
Qed.

Lemma split_comma_free_app t rest :
  comma_free t →
  PyStr.split "," (t +:+ "," +:+ rest) = t :: PyStr.split "," rest.
Proof.
  induction t as [|c t IH]; [done|].
  intros [Hc Ht]%comma_free_cons.
  change (String c t +:+ "," +:+ rest) with (String c (t +:+ "," +:+ rest)).
  by rewrite split_cons, (bool_decide_eq_false_2 _ Hc), IH.
Qed.

Lemma split_join terms :
  terms ≠ [] → Forall comma_free terms →
  PyStr.split "," (str_join "," terms) = terms.
Proof.
  intros Hne Hfree. induction Hfree as [|t terms Ht Hterms IH]; [done|].
  destruct terms as [|t' terms].
  - cbn. by apply split_comma_free.
  - cbn [str_join]. rewrite split_comma_free_app by done.
    f_equal. by apply IH.
Qed.

(** X20. Joining a list of terms with commas, as the default of the form
    does, and parsing it back gives the list again, for terms that are
    non-empty, lower-cased, free of surrounding white space and of commas;
    so the default of the form parses to [DISALLOWED_DEFAULT]. *)
Theorem parse_join_round_trip terms :
  Forall (λ t, t ≠ EmptyString ∧ PyStr.lower t = t ∧ PyStr.strip t = t
               ∧ comma_free t) terms →
  parse_terms (str_join "," terms) = terms.
Proof.
  intros Hterms. destruct (decide (terms = [])) as [-> | Hne]; [done|].
  unfold parse_terms. rewrite split_join; [|done|].
  - induction Hterms as [|t terms (Ht & Hlow & Hstrip & _) _ IH]; [done|].
    cbn [List.filter]. unfold PyStr.truthy at 1.
    rewrite Hstrip, (bool_decide_eq_false_2 _ Ht). cbn [negb map].
    rewrite Hstrip, Hlow. f_equal.
    destruct (decide (terms = [])) as [-> | Hne']; [done|]. by apply IH.
  - eapply Forall_impl; [done|]. by intros t (_ & _ & _ & Hfree).
Qed.

Lemma comma_free_contains t : PyStr.contains "," t = false → comma_free t.
Proof.
  intros Hno Hsub. apply contains_spec in Hsub. congruence.
Qed.

Lemma core_size prices :
  6 ≤ PyNum.len prices →
  select_core (PyNum.sorted prices) (PyNum.len prices)
    (trim_of (PyNum.len prices))
  = drop_both_ends (Z.to_nat (trim_of (PyNum.len prices))) (PyNum.sorted prices)
  ∧ PyNum.len (select_core (PyNum.sorted prices) (PyNum.len prices)
                 (trim_of (PyNum.len prices)))
    = PyNum.len prices - 2 * trim_of (PyNum.len prices).
Proof.
  intros Hn. destruct (trim_of_bounds _ Hn) as [H1 H3].
  assert (select_core (PyNum.sorted prices) (PyNum.len prices)
            (trim_of (PyNum.len prices))
          = drop_both_ends (Z.to_nat (trim_of (PyNum.len prices)))
              (PyNum.sorted prices)) as Hsel.
  { rewrite <- (len_sorted prices). apply select_core_large.
    by rewrite len_sorted. }
  split; [done|]. rewrite Hsel. unfold PyNum.len in *.
  rewrite length_drop_both_ends, sorted_length. lia.
Qed.
(** X21. How much the estimator discards: with 6 prices or more it drops
    the same number [trim >= 1] of prices at each end, the core keeps the
    other [n - 2*trim], and from 7 prices on no more than 15 percent of the
    sample is dropped at each end. *)
Theorem trimmed_share prices :
  let n := PyNum.len prices in
  let trim := trim_of n in
  6 ≤ n →
  1 ≤ trim
  ∧ PyNum.len (select_core (PyNum.sorted prices) n trim) = n - 2 * trim
  ∧ (7 ≤ n → 20 * trim ≤ 3 * n)
  ∧ (n < 14 → trim = 1).
Proof.
  intros n trim Hn.
  destruct (core_size prices Hn) as [Hsel Hlen]. fold n trim in Hsel, Hlen.
  destruct (trim_of_bounds n Hn) as [H1 _]. fold trim in H1.
  repeat split; [done | done |..].
  - intros H7. unfold trim. rewrite trim_of_eq.
    pose proof (Z.mul_div_le (3 * n) 20). lia.
  - intros H14. unfold trim. rewrite trim_of_eq.
    assert ((3 * n) / 20 < 2) by (apply Z.div_lt_upper_bound; lia).
    lia.
Qed.

End Pipeline.

(** * The pipeline on binary64 *)

Section OnBinary64.

Import Binary64.

Variable py_float : string → option float.
Variable py_sum : list float → float.

Lemma dyadic_pos m e : (0 < dyadic m e)%Qc.
Proof.
  unfold dyadic. destruct (Z.leb_spec 0 e) as [He|He].
  - rewrite <- Z2Qc_inj_0. apply (proj1 (Z2Qc_inj_lt 0 _)).
    pose proof (Z.pow_pos_nonneg 2 e). lia.
  - unfold Qclt, Q2Qc. cbn [this]. rewrite !Qred_correct.
    unfold Qlt. cbn [Qnum Qden]. lia.
Qed.

(** [round(x, 2)] of a positive float below [2^46] is the float nearest to
    [cents/100], where [cents] is the whole number nearest to a hundred
    times the value of [x], the even one of two when they are equally
    near. *)
Lemma round2_cents x q :
  value x = Some q → (0 < q)%Qc → (q < Qc_of_Z (2 ^ 46))%Qc →
  round2 x = (of_int (PyNum.round_half_even (q * Qc_of_Z 100)) / 100)%float.
Proof.
  unfold value, round2. intros Hval Hpos Hsmall.
  destruct (Prim2SF x) as [s| s | |s m e]; try done.
  - injection Hval as <-. by apply Qclt_not_eq in Hpos.
  - pose proof (dyadic_pos m e) as Hd. destruct s.
    + injection Hval as <-. exfalso. clear Hsmall.
      unfold Qclt, Qcopp, Q2Qc in *. cbn [this] in *.
      rewrite ?Qred_correct in *. lra.
    + injection Hval as ->.
      rewrite bool_decide_eq_false_2; [done|]. by apply Qclt_not_le.
Qed.

Lemma binary64_completed_run app_id kw gid cat cur n dis w tr :
  get_completed_prices py_float app_id kw gid cat cur n dis w tr
  = ((λ items, fold_left (completed_step py_float cur dis) items [])
       <$> w (findCompletedItems app_id kw gid cat n),
     tr ++ [findCompletedItems app_id kw gid cat n]).
Proof.
  unfold get_completed_prices, mbind, Net_bind, requests_get.
  by destruct (w _).
Qed.

Lemma binary64_active_run app_id kw gid cat cur n max_price dis w tr :
  get_active_under py_float app_id kw gid cat cur n max_price dis w tr
  = ((λ items, fold_left (active_step py_float cur dis) items [])
       <$> w (findItemsAdvanced app_id kw gid cat max_price cur n),
     tr ++ [findItemsAdvanced app_id kw gid cat max_price cur n]).
Proof.
  unfold get_active_under, mbind, Net_bind, requests_get.
  by destruct (w _).
Qed.

Ltac run_net64 :=
  unfold mbind, Net_bind, mret, Net_ret, lift, raise;
  rewrite ?binary64_completed_run, ?binary64_active_run.

Lemma binary64_api_try_populated app_id data w tr items avg active :
  w (findCompletedItems app_id (keywords data) (global_id data)
       (category_id data) (sold_fetch data)) = Ok items →
  let sold := fold_left (completed_step py_float (currency data)
                           (parse_terms (exclude_terms data))) items [] in
  estimate py_sum sold = Ok (Some avg) →
  (avg =? 0)%float = false →
  min_sold data ≤ PyNum.len sold →
  w (findItemsAdvanced app_id (keywords data) (global_id data)
       (category_id data) (threshold_of avg (discount_percent data))
       (currency data) (active_fetch data)) = Ok active →
  api_try py_float py_sum app_id data w tr
  = (Ok {| note := None; sold_count := PyNum.len sold;
           avg_price := Some (round2 avg);
           threshold := Some (threshold_of avg (discount_percent data));
           hits := fold_left (active_step py_float (currency data)
                                (parse_terms (exclude_terms data))) active [] |},
     tr ++ [findCompletedItems app_id (keywords data) (global_id data)
              (category_id data) (sold_fetch data);
            findItemsAdvanced app_id (keywords data) (global_id data)
              (category_id data) (threshold_of avg (discount_percent data))
              (currency data) (active_fetch data)]).
Proof.
  intros Hw sold Hest Hnz Hmin Hw2. unfold api_try. run_net64.
  rewrite Hw. cbn [fmap res_fmap]. fold sold. rewrite Hest.
  unfold truthy. rewrite Hnz.
  destruct (Z.ltb_spec (PyNum.len sold) (min_sold data)) as [|_]; [lia|].
  cbn [negb orb]. run_net64. rewrite Hw2. cbn [fmap res_fmap].
  by rewrite <- app_assoc.
Qed.

Lemma binary64_dashboard_try_populated app_id form w tr items avg active :
  (discount_percent form <=? 0)%float
  || (100 <=? discount_percent form)%float = false →
  w (findCompletedItems app_id (keywords form) (global_id form)
       (category_id form) (sold_fetch form)) = Ok items →
  let sold := fold_left (completed_step py_float (currency form)
                           (parse_terms (exclude_terms form))) items [] in
  estimate py_sum sold = Ok (Some avg) →
  (avg =? 0)%float = false →
  min_sold form ≤ PyNum.len sold →
  w (findItemsAdvanced app_id (keywords form) (global_id form)
       (category_id form) (threshold_of avg (discount_percent form))
       (currency form) (active_fetch form)) = Ok active →
  dashboard_try py_float py_sum app_id form w tr
  = (Ok {| note := None; sold_count := PyNum.len sold;
           avg_price := Some (round2 avg);
           threshold := Some (threshold_of avg (discount_percent form));
           hits := fold_left (active_step py_float (currency form)
                                (parse_terms (exclude_terms form))) active [] |},
     tr ++ [findCompletedItems app_id (keywords form) (global_id form)
              (category_id form) (sold_fetch form);
            findItemsAdvanced app_id (keywords form) (global_id form)
              (category_id form) (threshold_of avg (discount_percent form))
              (currency form) (active_fetch form)]).
Proof.
  intros Hvalid Hw sold Hest Hnz Hmin Hw2. unfold dashboard_try.
  rewrite Hvalid. run_net64.
  rewrite Hw. cbn [fmap res_fmap]. fold sold. rewrite Hest.
  unfold truthy. rewrite Hnz.
  destruct (Z.ltb_spec (PyNum.len sold) (min_sold form)) as [|_]; [lia|].
  cbn [negb orb]. run_net64. rewrite Hw2. cbn [fmap res_fmap].
  by rewrite <- app_assoc.
Qed.

(** C7. On binary64, as the interpreter computes. When the classifier
    proceeds, that is when the estimate [avg] is present and not zero and
    at least [min_sold] prices were found, both entry points send the
    active search with the threshold
    [round(avg * (1 - discount_percent/100), 2)] and return that threshold,
    the average rounded to two decimals and the hits of that search, with
    no note; only the search with that threshold needs an answer, and
    [dashboard] does so for a discount that passed its validation and is a
    number.
    [round(_, 2)] is the float nearest to the whole number of hundredths
    that is nearest to the value, ties going to the even one: 2.675, which
    as a float is below the decimal, gives 2.67, and 0.125 and 0.375, which
    are exact, give 0.12 and 0.38. With an average of 100.00 and a discount
    of 40 the threshold is 60.00 exactly; with 5.27 and 50 the product is
    2.6349999999999998 and the threshold 2.63. *)
Theorem populated_result :
  threshold_of 100 40 = 60%float
  ∧ (5.27 * (1 - 50 / 100) = 2.6349999999999998
     ∧ threshold_of 5.27 50 = 2.63)%float
  ∧ round2 <$> [2.675; 0.125; 0.375; 0.005; 123456.785; 60; 1e-9]%float
    = [2.67; 0.12; 0.38; 0.01; 123456.79; 60; 0]%float
  ∧ (∀ x q,
       value x = Some q → (0 < q)%Qc → (q < Qc_of_Z (2 ^ 46))%Qc →
       let cents := PyNum.round_half_even (q * Qc_of_Z 100) in
       round2 x = (of_int cents / 100)%float
       ∧ (Qc_of_Z cents - 1 / 2 ≤ q * Qc_of_Z 100
          ∧ q * Qc_of_Z 100 ≤ Qc_of_Z cents + 1 / 2)%Qc)
  ∧ ∀ app_id user_keys api_key form w items avg active,
      PyStr.truthy app_id = true →
      PyStr.truthy api_key = true →
      api_key ∈ user_keys →
      w (findCompletedItems app_id (keywords form) (global_id form)
           (category_id form) (sold_fetch form)) = Ok items →
      let sold := fold_left (completed_step py_float (currency form)
                               (parse_terms (exclude_terms form))) items [] in
      estimate py_sum sold = Ok (Some avg) →
      (avg =? 0)%float = false →
      min_sold form ≤ PyNum.len sold →
      let threshold :=
        round2 (avg * (1 - discount_percent form / 100))%float in
      w (findItemsAdvanced app_id (keywords form) (global_id form)
           (category_id form) threshold (currency form) (active_fetch form))
      = Ok active →
      let result :=
        {| note := None; sold_count := PyNum.len sold;
           avg_price := Some (round2 avg);
           threshold := Some threshold;
           hits := fold_left (active_step py_float (currency form)
                                (parse_terms (exclude_terms form)))
                     active [] |} in
      let calls :=
        [findCompletedItems app_id (keywords form) (global_id form)
           (category_id form) (sold_fetch form);
         findItemsAdvanced app_id (keywords form) (global_id form)
           (category_id form) threshold (currency form)
           (active_fetch form)] in
      api_search py_float py_sum (Some app_id) user_keys (Some api_key) form w
      = (ApiOk result, calls)
      ∧ ((discount_percent form <=? 0)%float
         || (100 <=? discount_percent form)%float = false →
         is_nan (discount_percent form) = false →
         dashboard py_float py_sum (Some app_id) form w
         = ({| page_results := Some result; page_flashes := [] |}, calls)).
Proof.
  split; [reflexivity|]. split; [by split|]. split; [reflexivity|]. split.
  { intros x q Hval Hpos Hsmall cents. split.
    - by apply round2_cents.
    - apply round_half_even_near. }
  intros app_id user_keys api_key form w items avg active
    Happ Hkey Hin Hw sold Hest Hnz Hmin threshold Hw2. cbn zeta. split.
  - unfold api_search. rewrite Hkey, Happ. cbn [negb].
    rewrite (bool_decide_eq_true_2 _ Hin). cbn [negb].
    by rewrite (binary64_api_try_populated _ _ _ _ items avg active).
  - intros Hvalid Hnum. unfold dashboard. rewrite Happ.
    rewrite (binary64_dashboard_try_populated _ _ _ _ items avg active)
      by done.
    by rewrite Hnum.
Qed.

Lemma binary64_active_step_keep cur dis results it :
  active_step py_float cur dis results it
  = results ++ option_list (active_keep py_float cur dis it).
Proof.
  unfold active_step, active_keep.
  destruct (contains_disallowed _ _); cbn [negb andb];
    [destruct (price_of _ _); by rewrite app_nil_r|].
  destruct (bool_decide (raw_currencyId it = Some cur)); cbn [negb andb];
    [|destruct (price_of _ _); by rewrite app_nil_r].
  destruct (price_of _ _) as [price|]; [|by rewrite app_nil_r].
  destruct (price <=? 0)%float; cbn [negb]; [by rewrite app_nil_r | done].
Qed.

Lemma binary64_active_fold cur dis items results :
  fold_left (active_step py_float cur dis) items results
  = results ++ omap (active_keep py_float cur dis) items.
Proof.
  revert results. induction items as [|it items IH]; intros results.
  - by rewrite app_nil_r.
  - cbn [fold_left omap list_omap]. rewrite IH, binary64_active_step_keep.
    rewrite <- app_assoc. f_equal.
    by destruct (active_keep py_float cur dis it).
Qed.

Lemma binary64_active_keep_Some cur dis it h :
  active_keep py_float cur dis it = Some h
  ↔ contains_disallowed (raw_title it) dis = false
    ∧ raw_currencyId it = Some cur
    ∧ price_of py_float it = Some (hit_price h)
    ∧ (hit_price h <=? 0)%float = false
    ∧ h = {| hit_id := raw_itemId it; hit_title := raw_title it;
             hit_price := hit_price h; hit_url := raw_viewItemURL it |}.
Proof.
  unfold active_keep. destruct (price_of py_float it) as [price|].
  - destruct (contains_disallowed _ _); cbn [negb andb];
      [split; [done | by intros [? _]]|].
    destruct (decide (raw_currencyId it = Some cur)) as [Hcur | Hcur].
    + rewrite (bool_decide_eq_true_2 _ Hcur). cbn [andb].
      destruct (price <=? 0)%float eqn:Hle; cbn [negb].
      * split; [done|]. intros (_ & _ & [= ->] & Hle' & _). congruence.
      * split.
        -- intros [= <-]. by cbn.
        -- intros (_ & _ & [= ->] & _ & ->). done.
    + rewrite (bool_decide_eq_false_2 _ Hcur). cbn [andb].
      split; [done | by intros (_ & ? & _)].
  - split; [done | by intros (_ & _ & ? & _)].
Qed.

Lemma binary64_active_ids_sublist cur dis items :
  (hit_id <$> omap (active_keep py_float cur dis) items)
  `sublist_of` (raw_itemId <$> items).
Proof.
  induction items as [|it items IH]; [done|]. cbn [omap list_omap].
  destruct (active_keep py_float cur dis it) as [h|] eqn:Hkeep; cbn.
  - apply binary64_active_keep_Some in Hkeep as (_ & _ & _ & _ & ->).
    by apply sublist_skip.
  - by apply sublist_cons.
Qed.

(** X2. What [get_active_under] returns when the request answers: every
    hit copies the id, title and url of a listing of the response that has
    an allowed title, the requested currency and a price that parsed and
    did not test [<= 0], and every such listing gives a hit; the hits keep
    the order of the response (their ids are a subsequence of the ids of
    the response). The test is the one of line 151 on floats: a price that
    reads nan passes it, so a hit may carry nan as its price. The price is
    not compared with [max_price]: that is left to the server. *)
Theorem active_hits_characterised app_id kw gid cat cur n max_price dis w tr
    hits tr' :
  get_active_under py_float app_id kw gid cat cur n max_price dis w tr
  = (Ok hits, tr') →
  ∃ items,
    w (findItemsAdvanced app_id kw gid cat max_price cur n) = Ok items
    ∧ tr' = tr ++ [findItemsAdvanced app_id kw gid cat max_price cur n]
    ∧ (∀ h, h ∈ hits
            ↔ ∃ it, it ∈ items
                    ∧ contains_disallowed (raw_title it) dis = false
                    ∧ raw_currencyId it = Some cur
                    ∧ price_of py_float it = Some (hit_price h)
                    ∧ (hit_price h <=? 0)%float = false
                    ∧ h = {| hit_id := raw_itemId it;
                             hit_title := raw_title it;
                             hit_price := hit_price h;
                             hit_url := raw_viewItemURL it |})
    ∧ ((hit_id <$> hits) `sublist_of` (raw_itemId <$> items))
    ∧ (∀ it, it ∈ items →
             contains_disallowed (raw_title it) dis = false →
             raw_currencyId it = Some cur →
             price_of py_float it = Some nan →
             {| hit_id := raw_itemId it; hit_title := raw_title it;
                hit_price := nan; hit_url := raw_viewItemURL it |} ∈ hits).
Proof.
  rewrite binary64_active_run.
  destruct (w _) as [items|e]; cbn [fmap res_fmap]; [|done].
  intros [= <- <-]. exists items. rewrite binary64_active_fold, app_nil_l.
  split; [done|]. split; [done|].
  assert (∀ h, h ∈ omap (active_keep py_float cur dis) items
            ↔ ∃ it, it ∈ items
                    ∧ contains_disallowed (raw_title it) dis = false
                    ∧ raw_currencyId it = Some cur
                    ∧ price_of py_float it = Some (hit_price h)
                    ∧ (hit_price h <=? 0)%float = false
                    ∧ h = {| hit_id := raw_itemId it;
                             hit_title := raw_title it;
                             hit_price := hit_price h;
                             hit_url := raw_viewItemURL it |}) as Hmem.
  { intros h. split.
    - intros (it & Hin & Hkeep)%list_elem_of_omap. exists it.
      split; [done|]. by apply binary64_active_keep_Some.
    - intros (it & Hin & Hrest). apply list_elem_of_omap. exists it.
      split; [done|]. by apply binary64_active_keep_Some. }
  split; [exact Hmem|]. split; [apply binary64_active_ids_sublist|].
  intros it Hin Htitle Hcur Hprice. apply Hmem. exists it.
  by repeat split.
Qed.

End OnBinary64.

(** ** The claims on the sample data *)

(** The title check compares the terms as they are: an upper-case term in
    the list given to [contains_disallowed] itself matches nothing. *)
Example contains_disallowed_upper_term :
  contains_disallowed "PSA9 Charizard" ["PSA"] = false.
Proof. reflexivity. Qed.

(** C8. [api_search] has no check of the discount: with a discount of 0 and
    with a discount of 100 it sends both requests and answers with hits,
    the threshold being the whole average and zero. *)
Theorem api_search_accepts_invalid_discount :
  api_search decimal_float (Some "APP") ["k1"] (Some "k1")
    (with_discount (Qc_of_Z 0) default_form) demo_world
  = (ApiOk {| note := None; sold_count := 15;
              avg_price := Some (Qc_of_Z 10);
              threshold := Some (Qc_of_Z 10); hits := [demo_hit] |},
     [completed_call "vintage pokemon cards holo"; active_call (Qc_of_Z 10)])
  ∧ api_search decimal_float (Some "APP") ["k1"] (Some "k1")
      (with_discount (Qc_of_Z 100) default_form) demo_world
    = (ApiOk {| note := None; sold_count := 15;
                avg_price := Some (Qc_of_Z 10);
                threshold := Some (Qc_of_Z 0); hits := [demo_hit] |},
       [completed_call "vintage pokemon cards holo"; active_call (Qc_of_Z 0)]).
Proof. split; compute_done. Qed.

(** The dashboard, by contrast, rejects both before any request. *)
Example dashboard_rejects_0_and_100 :
  dashboard decimal_float (Some "APP") (with_discount (Qc_of_Z 0) default_form)
    demo_world
  = ({| page_results := None;
        page_flashes := ["Discount % must be between 1 and 99."] |}, [])
  ∧ dashboard decimal_float (Some "APP")
      (with_discount (Qc_of_Z 100) default_form) demo_world
    = ({| page_results := None;
          page_flashes := ["Discount % must be between 1 and 99."] |}, []).
Proof. split; compute_done. Qed.

Lemma result_invariant_of_search_witness :
  page_results
    (dashboard decimal_float (Some "APP") default_form demo_world).1
  = Some populated
  ∧ result_invariant 12 populated.
Proof.
  assert (page_results
            (dashboard decimal_float (Some "APP") default_form demo_world).1
          = Some populated) as Hrun by compute_done.
  split; [exact Hrun|].
  apply (result_invariant_of_search decimal_float (Some "APP") [] None
           default_form demo_world populated).
  left. exact Hrun.
Defined.

Lemma insufficient_data_outcome_witness :
  PyNum.len (fold_left (completed_step decimal_float "GBP"
                          (parse_terms (exclude_terms default_form)))
               few_items []) < 12
  ∧ (api_search decimal_float (Some "APP") ["k1"] (Some "k1")
       (with_keywords "few" default_form) demo_world).2
    = [completed_call "few"]
  ∧ (dashboard decimal_float (Some "APP")
       (with_keywords "few" default_form) demo_world).2
    = [completed_call "few"].
Proof.
  assert (PyNum.len (fold_left (completed_step decimal_float "GBP"
                                  (parse_terms (exclude_terms default_form)))
                       few_items []) < 12) as Hfew by (by vm_compute).
  split; [exact Hfew|].
  destruct (insufficient_data_outcome decimal_float "APP" ["k1"] "k1"
              (with_keywords "few" default_form) demo_world few_items)
    as (est & _ & Hapi & Hdash).
  - reflexivity.
  - reflexivity.
  - apply list_elem_of_here.
  - reflexivity.
  - right. exact Hfew.
  - split.
    + rewrite Hapi. reflexivity.
    + rewrite Hdash; [reflexivity | by vm_compute | by vm_compute].
Defined.

Lemma trimmed_core_mean_witness :
  6 ≤ PyNum.len eight_prices
  ∧ trimmed_mean eight_prices
    = Ok (Some (arithmetic_mean
                  (drop_both_ends 1 (PyNum.sorted eight_prices)))).
Proof.
  split; [by vm_compute|].
  apply (proj1 trimmed_core_mean eight_prices).
  - by vm_compute.
  - vm_compute. lia.
Defined.

Lemma core_always_large_witness :
  6 ≤ PyNum.len eight_prices
  ∧ PyNum.len (PyNum.slice (PyNum.sorted eight_prices) 1 7) = 6.
Proof.
  split; [by vm_compute|].
  destruct (core_always_large eight_prices) as (_ & _ & _ & Hlen & _).
  - by vm_compute.
  - exact Hlen.
Defined.

Lemma short_sample_median_witness :
  PyNum.len four_prices < 6
  ∧ trimmed_mean four_prices
    = Ok (Some (median_of_sorted (PyNum.sorted four_prices)))
  ∧ median_of_sorted (PyNum.sorted four_prices) = Q2Qc (7 # 2).
Proof.
  split; [by vm_compute|]. split.
  - apply (proj2 short_sample_median four_prices); [discriminate | by vm_compute].
  - compute_done.
Defined.

Lemma title_exclusion_substring_witness :
  "psa" ∈ DISALLOWED_DEFAULT
  ∧ contains_disallowed "PSA9 Charizard" DISALLOWED_DEFAULT = true.
Proof.
  assert ("psa" ∈ DISALLOWED_DEFAULT) as Hin by apply list_elem_of_here.
  split; [exact Hin|].
  destruct (title_exclusion_substring decimal_float) as (_ & _ & _ & Hpsa & _).
  by apply Hpsa.
Defined.

Lemma currency_mismatch_excluded_witness :
  raw_currencyId dollar_listing ≠ Some "GBP"
  ∧ fold_left (completed_step decimal_float "GBP" DISALLOWED_DEFAULT)
      ([sold_card] ++ dollar_listing :: [sold_card]) []
    = fold_left (completed_step decimal_float "GBP" DISALLOWED_DEFAULT)
        ([sold_card] ++ [sold_card]) [].
Proof.
  assert (raw_currencyId dollar_listing ≠ Some "GBP") as Hne by discriminate.
  split; [exact Hne|].
  apply (currency_mismatch_excluded decimal_float "GBP" DISALLOWED_DEFAULT
           dollar_listing [sold_card] [sold_card] Hne).
Defined.

(** ** The further properties on the sample data *)

Lemma completed_prices_characterised_witness :
  get_completed_prices decimal_float "APP" "few" "EBAY-GB" "183454" "GBP" 50
    DISALLOWED_DEFAULT demo_world []
  = (Ok (replicate 5 (Qc_of_Z 10)), [completed_call "few"])
  ∧ ∃ it, it ∈ few_items ∧ price_of decimal_float it = Some (Qc_of_Z 10).
Proof.
  assert (get_completed_prices decimal_float "APP" "few" "EBAY-GB" "183454"
            "GBP" 50 DISALLOWED_DEFAULT demo_world []
          = (Ok (replicate 5 (Qc_of_Z 10)), [completed_call "few"])) as Hrun
    by compute_done.
  split; [exact Hrun|].
  destruct (completed_prices_characterised decimal_float _ _ _ _ _ _ _ _ _ _ _
              Hrun) as (items & Hw & _ & _ & Hmem).
  injection Hw as <-.
  destruct (proj1 (Hmem (Qc_of_Z 10))) as (it & Hin & _ & _ & _ & Hprice & _).
  - apply list_elem_of_here.
  - exists it. split; [exact Hin | exact Hprice].
Defined.

Lemma bad_record_skipped_witness :
  price_of decimal_float unpriced_listing = None
  ∧ fold_left (active_step decimal_float "GBP" DISALLOWED_DEFAULT)
      ([sold_card] ++ unpriced_listing :: [sold_card]) []
    = fold_left (active_step decimal_float "GBP" DISALLOWED_DEFAULT)
        ([sold_card] ++ [sold_card]) [].
Proof.
  assert (price_of decimal_float unpriced_listing = None) as Hbad
    by reflexivity.
  split; [exact Hbad|].
  apply (proj1 (bad_record_skipped decimal_float "GBP" DISALLOWED_DEFAULT
                  unpriced_listing [sold_card] [sold_card])).
  left. exact Hbad.
Defined.

Lemma missing_value_skipped_witness :
  decimal_float "0" = Some 0%Qc
  ∧ fold_left (completed_step decimal_float "GBP" DISALLOWED_DEFAULT)
      ([sold_card] ++ valueless_listing :: [sold_card]) []
    = fold_left (completed_step decimal_float "GBP" DISALLOWED_DEFAULT)
        ([sold_card] ++ [sold_card]) [].
Proof.
  assert (decimal_float "0" = Some 0%Qc) as Hzero by compute_done.
  split; [exact Hzero|].
  apply (missing_value_skipped decimal_float "GBP" DISALLOWED_DEFAULT
           valueless_listing [sold_card] [sold_card] Hzero).
  reflexivity.
Defined.

Lemma trimmed_mean_permutation_witness :
  four_prices ≡ₚ reverse four_prices
  ∧ trimmed_mean four_prices = trimmed_mean (reverse four_prices).
Proof.
  assert (four_prices ≡ₚ reverse four_prices) as Hperm
    by (symmetry; apply reverse_Permutation).
  split; [exact Hperm|].
  apply (trimmed_mean_permutation _ _ Hperm).
Defined.

Lemma extreme_price_irrelevant_witness :
  Forall (λ z, z ≤ Qc_of_Z 100)%Qc seven_tens
  ∧ trimmed_mean (Qc_of_Z 100 :: seven_tens)
    = trimmed_mean (Qc_of_Z 5000 :: seven_tens).
Proof.
  assert (Forall (λ z, z ≤ Qc_of_Z 100)%Qc seven_tens) as H100
    by (repeat constructor; by vm_compute).
  assert (Forall (λ z, z ≤ Qc_of_Z 5000)%Qc seven_tens) as H5000
    by (repeat constructor; by vm_compute).
  split; [exact H100|].
  apply (extreme_price_irrelevant seven_tens (Qc_of_Z 100) (Qc_of_Z 5000)).
  - cbn. lia.
  - left. split; [exact H100 | exact H5000].
Defined.

Lemma api_search_gate_witness :
  ("k2" ∉ ["k1"])
  ∧ api_search decimal_float (Some "APP") ["k1"] (Some "k2") default_form
      demo_world
    = (ApiError 403 "Invalid API key", []).
Proof.
  assert ("k2" ∉ ["k1"]) as Hnot.
  { intros Hin%list_elem_of_singleton. discriminate. }
  split; [exact Hnot|].
  destruct (api_search_gate decimal_float (Some "APP") ["k1"] (Some "k2")
              default_form demo_world) as (_ & H403 & _).
  apply (H403 "k2"); [reflexivity | discriminate | exact Hnot].
Defined.

Lemma fetch_failure_propagates_witness :
  down_world (completed_call "vintage pokemon cards holo")
  = Raise (RequestException "503 Server Error")
  ∧ api_search decimal_float (Some "APP") ["k1"] (Some "k1") default_form
      down_world
    = (ApiError 400 "503 Server Error",
       [completed_call "vintage pokemon cards holo"]).
Proof.
  split; [reflexivity|].
  destruct (fetch_failure_propagates decimal_float "APP" ["k1"] "k1"
              default_form down_world (RequestException "503 Server Error"))
    as [Hfirst _].
  - reflexivity.
  - reflexivity.
  - apply list_elem_of_here.
  - by vm_compute.
  - by vm_compute.
  - destruct Hfirst as [Hapi _]; [reflexivity | exact Hapi].
Defined.

Lemma requests_match_result_witness :
  dashboard decimal_float (Some "APP") default_form demo_world
  = ({| page_results := Some populated; page_flashes := [] |},
     [completed_call "vintage pokemon cards holo"; active_call (Qc_of_Z 6)])
  ∧ ∃ app_id, Some "APP" = Some app_id.
Proof.
  assert (dashboard decimal_float (Some "APP") default_form demo_world
          = ({| page_results := Some populated; page_flashes := [] |},
             [completed_call "vintage pokemon cards holo";
              active_call (Qc_of_Z 6)])) as Hrun by compute_done.
  split; [exact Hrun|].
  destruct (requests_match_result decimal_float (Some "APP") [] None
              default_form demo_world populated _ (or_introl Hrun))
    as (app_id & Happ & _).
  by exists app_id.
Defined.

Lemma entry_points_agree_witness :
  (0 < discount_percent default_form)%Qc
  ∧ ∃ r', dashboard decimal_float (Some "APP") default_form demo_world
          = ({| page_results := Some r'; page_flashes := [] |},
             [completed_call "vintage pokemon cards holo";
              active_call (Qc_of_Z 6)]).
Proof.
  assert (0 < discount_percent default_form)%Qc as H0 by (by vm_compute).
  split; [exact H0|].
  assert (api_search decimal_float (Some "APP") ["k1"] (Some "k1")
            default_form demo_world
          = (ApiOk populated,
             [completed_call "vintage pokemon cards holo";
              active_call (Qc_of_Z 6)])) as Hapi by compute_done.
  pose proof (entry_points_agree decimal_float "APP" ["k1"] "k1" default_form
                demo_world eq_refl eq_refl (list_elem_of_here _ _) H0)
    as Hagree.
  rewrite Hapi in Hagree.
  destruct Hagree as (r' & Hdash & _); [by vm_compute|].
  by exists r'.
Defined.

Lemma dashboard_requires_login_witness :
  (∅ : gmap string Z) !! "uid" = None
  ∧ dashboard_route decimal_float (Some "APP") ∅ [demo_user] POST
      default_form demo_world
    = (RedirectIndex, []).
Proof.
  split; [reflexivity|].
  apply (proj1 (dashboard_requires_login decimal_float (Some "APP") ∅
                  [demo_user] POST default_form demo_world)).
  left. reflexivity.
Defined.

Lemma dashboard_get_is_idle_witness :
  is_Some (current_user {["uid" := 1]} [demo_user])
  ∧ dashboard_route decimal_float (Some "APP") {["uid" := 1]} [demo_user] GET
      default_form demo_world
    = (RenderDashboard {| page_results := None; page_flashes := [] |}, []).
Proof.
  assert (is_Some (current_user {["uid" := 1]} [demo_user])) as Hin
    by (by exists demo_user).
  split; [exact Hin|].
  destruct (dashboard_get_is_idle decimal_float (Some "APP") {["uid" := 1]}
              [demo_user] GET default_form demo_world) as (_ & Hget & _).
  by apply Hget.
Defined.


Lemma empty_table_stays_closed_witness :
  (∅ : gmap string Z) !! "uid" = None
  ∧ (welcome demo_stripe "tok" "2024-05-01T12:00:00" (Some "cs_2") ∅ []).2 = [].
Proof.
  split; [reflexivity|].
  pose proof (empty_table_stays_closed decimal_float demo_stripe "tok"
                "2024-05-01T12:00:00" (Some "cs_2") ∅ (Some "APP") (Some "k1")
                POST default_form demo_world eq_refl) as Hclosed.
  destruct (welcome demo_stripe "tok" "2024-05-01T12:00:00" (Some "cs_2") ∅ [])
    as [[resp session'] users'].
  by destruct Hclosed as [-> _].
Defined.

Lemma welcome_logs_in_witness :
  user_id demo_user ≠ 0
  ∧ current_user (<["uid" := 1]> ∅) [demo_user] = Some demo_user.
Proof.
  split; [discriminate|].
  destruct (welcome_logs_in decimal_float demo_stripe "tok"
              "2024-05-01T12:00:00" "cs_1"
              {| customer_email := Some "ash@example.com";
                 customer_id := "cus_1" |}
              ∅ [demo_user] demo_user (Some "APP") default_form demo_world)
    as (_ & Hcur & _).
  - discriminate.
  - reflexivity.
  - reflexivity.
  - discriminate.
  - by intros u ->%list_elem_of_singleton.
  - exact Hcur.
Defined.

Lemma parse_terms_normalised_witness :
  "job lot" ∈ parse_terms " PSA , Job Lot ,, "
  ∧ PyStr.strip "job lot" = "job lot".
Proof.
  assert ("job lot" ∈ parse_terms " PSA , Job Lot ,, ") as Hin
    by (change (parse_terms " PSA , Job Lot ,, ") with ["psa"; "job lot"];
        apply list_elem_of_further, list_elem_of_here).
  split; [exact Hin|].
  by destruct (proj1 (parse_terms_normalised " PSA , Job Lot ,, ")
                 "job lot" Hin) as (_ & _ & Hstrip).
Defined.

Lemma parse_join_round_trip_witness :
  str_join "," DISALLOWED_DEFAULT = exclude_terms default_form
  ∧ parse_terms (str_join "," DISALLOWED_DEFAULT) = DISALLOWED_DEFAULT.
Proof.
  split; [reflexivity|].
  apply (parse_join_round_trip DISALLOWED_DEFAULT).
  repeat constructor; try done; by apply comma_free_contains.
Defined.

Lemma trimmed_share_witness :
  6 ≤ PyNum.len eight_prices ∧ trim_of (PyNum.len eight_prices) = 1.
Proof.
  split; [by vm_compute|].
  destruct (trimmed_share eight_prices) as (_ & _ & _ & Hone).
  - by vm_compute.
  - apply Hone. by vm_compute.
Defined.

(** ** The properties on binary64, on the sample data *)

Lemma populated_result_witness :
  Binary64.estimate Binary64.sum_left (replicate 15 5.27%float)
  = Ok (Some 5.2699999999999987%float)
  ∧ Binary64.api_search Binary64.sample_float Binary64.sum_left (Some "APP")
      ["k1"] (Some "k1") Binary64.half_price_form Binary64.demo_world
    = (Binary64.ApiOk Binary64.demo_result, Binary64.demo_calls)
  ∧ Binary64.dashboard Binary64.sample_float Binary64.sum_left (Some "APP")
      Binary64.half_price_form Binary64.demo_world
    = ({| Binary64.page_results := Some Binary64.demo_result;
          Binary64.page_flashes := [] |}, Binary64.demo_calls)
  ∧ Binary64.value 2.675 = Some (Binary64.dyadic 6023564501608038 (-51))
  ∧ Binary64.round2 2.675 = (Binary64.of_int 267 / 100)%float.
Proof.
  split; [reflexivity|].
  pose proof (populated_result Binary64.sample_float Binary64.sum_left)
    as (_ & _ & _ & Hround & Hrun).
  destruct (Hrun "APP" ["k1"] "k1" Binary64.half_price_form
              Binary64.demo_world Binary64.sold_items
              5.2699999999999987%float Binary64.active_items)
    as [Hapi Hdash].
  - reflexivity.
  - reflexivity.
  - apply list_elem_of_here.
  - reflexivity.
  - reflexivity.
  - reflexivity.
  - by vm_compute.
  - reflexivity.
  - split; [exact Hapi|]. split; [apply Hdash; reflexivity|].
    split; [reflexivity|].
    destruct (Hround 2.675%float (Binary64.dyadic 6023564501608038 (-51)))
      as [Hcents _].
    + reflexivity.
    + by vm_compute.
    + by vm_compute.
    + exact Hcents.
Defined.

Lemma active_hits_characterised_witness :
  Binary64.get_active_under Binary64.sample_float "APP" "holo" "EBAY-GB"
    "183454" "GBP" 50 2.63 DISALLOWED_DEFAULT Binary64.demo_world []
  = (Ok Binary64.demo_hits,
     [Binary64.findItemsAdvanced "APP" "holo" "EBAY-GB" "183454" 2.63 "GBP" 50])
  ∧ {| Binary64.hit_id := "1"; Binary64.hit_title := "Squirtle holo";
       Binary64.hit_price := nan;
       Binary64.hit_url := "https://www.ebay.co.uk/itm/1" |}
    ∈ Binary64.demo_hits.
Proof.
  assert (Binary64.get_active_under Binary64.sample_float "APP" "holo"
            "EBAY-GB" "183454" "GBP" 50 2.63 DISALLOWED_DEFAULT
            Binary64.demo_world []
          = (Ok Binary64.demo_hits,
             [Binary64.findItemsAdvanced "APP" "holo" "EBAY-GB" "183454" 2.63
                "GBP" 50])) as Hrun by reflexivity.
  split; [exact Hrun|].
  destruct (active_hits_characterised Binary64.sample_float _ _ _ _ _ _ _ _ _
              _ _ _ Hrun) as (items & Hw & _ & _ & _ & Hnan).
  injection Hw as <-.
  apply (Hnan (listing "Squirtle holo" "Active" "GBP" "nan")).
  - apply list_elem_of_further, list_elem_of_here.
  - reflexivity.
  - reflexivity.
  - reflexivity.
Defined.
